(** * APIv3 viewsets of readthedocs ([readthedocs/api/v3/views.py])

    A shallow embedding of the resource controllers of the public API:
    serializer resolution per action, query scoping, the project import,
    the version update, the build trigger and the notification listings.

    Python objects become records, dictionaries become [gmap string _],
    querysets become functions of the database that yield lists, and a
    handler becomes a computation that threads the database and either
    returns a value or raises a Python exception. *)

From Stdlib Require Import ZArith.
From stdpp Require Import base strings list gmap sorting.

Open Scope string_scope.
Open Scope list_scope.
Open Scope Z_scope.

(** ** Python exceptions and the handler monad *)

(** The exception classes a handler of this module can meet.  The last
    two derive from [BaseException] only, so [except Exception] lets
    them through. *)
Inductive exn : Type :=
  | Http404
  | PermissionDenied
  | NotAuthenticated
  | MethodNotAllowed
  | ValidationError (errors : list string)
  | AttributeError (msg : string)
  | TypeError (msg : string)
  | DoesNotExist (model : string)
  | IntegrityError (msg : string)
  | DatabaseError (msg : string)
  | KeyError (key : string)
  | ValueError (msg : string)
  | AssertionError (msg : string)
  | MultipleObjectsReturned
  | RuntimeError (msg : string)
  | KeyboardInterrupt
  | SystemExit.

(** [isinstance(e, Exception)] *)
Definition isinstance_Exception (e : exn) : bool :=
  match e with
  | KeyboardInterrupt | SystemExit => false
  | _ => true
  end.

Inductive outcome (A : Type) : Type :=
  | Return (a : A)
  | Raise (e : exn).
Arguments Return {A} a.
Arguments Raise {A} e.

(** ** Wire values *)

#[local] Set Warnings "-register-all".

Inductive json : Type :=
  | JNull
  | JBool (b : bool)
  | JInt (z : Z)
  | JStr (s : string)
  | JList (items : list json)
  | JDict (fields : gmap string json).

(** A Python [dict] with string keys, as [serializer.data] and the body
    of a response are. *)
Abbreviation dict := (gmap string json).

(** ** Resource model *)

Record User := {
  user_pk : Z;
  username : string;
  is_authenticated : bool;
}.

Inductive Privacy := Public | Private.

#[global] Instance Privacy_eq_dec : EqDecision Privacy.
Proof. solve_decision. Defined.

Record Project := {
  project_slug : string;
  privacy_level : Privacy;
  (** primary keys of the users that administer the project *)
  users : list Z;
}.

#[global] Instance Project_eq_dec : EqDecision Project.
Proof. solve_decision. Defined.

Record ProjectRelationship := {
  parent : string;
  child : string;
  alias : string;
}.

Record Version := {
  version_slug : string;
  version_project : string;
  active : bool;
  hidden : bool;
}.

#[global] Instance Version_eq_dec : EqDecision Version.
Proof. solve_decision. Defined.

Record Build := {
  build_pk : Z;
  build_project : string;
  version : Version;
}.

(** The model classes a [ContentType] row can stand for. *)
Inductive ModelClass :=
  | UserModel | ProjectModel | BuildModel | OrganizationModel.

#[global] Instance ModelClass_eq_dec : EqDecision ModelClass.
Proof. solve_decision. Defined.

Record ContentType := { model_class : ModelClass }.

#[global] Instance ContentType_eq_dec : EqDecision ContentType.
Proof. solve_decision. Defined.

Record Notification := {
  notification_pk : Z;
  attached_to_content_type : ContentType;
  attached_to_id : Z;
  message_id : string;
}.

Record Organization := {
  organization_slug : string;
  owners : list Z;
}.

(** Values held by [serializer.validated_data]: plain wire values, or a
    model instance for a relation. *)
Inductive pyobj : Type :=
  | PJson (j : json)
  | PProject (p : Project).

(** A row of a model whose only relation is its project ([Redirect],
    [EnvironmentVariable]); the remaining columns stay in [columns]. *)
Record Row := {
  row_pk : Z;
  row_project : Project;
  columns : gmap string pyobj;
}.

(** Calls received by the collaborators that keep a journal. *)
Inductive call : Type :=
  | PostSave (v : Version) (was_active : bool)
  | FinishImport (p : Project)
  | TriggerBuild (p : Project) (v : Version).

Record Database := {
  projects : list Project;
  relationships : list ProjectRelationship;
  versions : list Version;
  builds : list Build;
  redirects : list Row;
  environmentvariables : list Row;
  notifications : list Notification;
  auth_users : list User;
  organizations : list Organization;
  journal : list call;
}.

(** A handler: runs on a database, leaves a database (also when it
    raises: nothing here undoes a write) and returns or raises. *)
Definition M (A : Type) : Type := Database → Database * outcome A.

#[global] Instance M_ret : MRet M := λ A a db, (db, Return a).

#[global] Instance M_bind : MBind M := λ A B f m db,
  match m db with
  | (db', Return a) => f a db'
  | (db', Raise e) => (db', Raise e)
  end.

Definition raise {A} (e : exn) : M A := λ db, (db, Raise e).

(** A read of the database that may raise. *)
Definition query {A} (q : Database → outcome A) : M A := λ db, (db, q db).

(** [try: body / except Exception: handler] *)
Definition try_except_Exception {A} (body : M A) (handler : M A) : M A :=
  λ db,
    match body db with
    | (db', Raise e) =>
        if isinstance_Exception e then handler db' else (db', Raise e)
    | r => r
    end.

(** ** Requests and responses *)

Record Request := {
  user : User;
  data : dict;
}.

(** The attributes of a viewset instance that the handlers read. *)
Record View := {
  basename : string;
  action : string;
  detail : bool;
  request : Request;
  kwargs : gmap string string;
}.

Definition HTTP_200_OK : Z := 200.
Definition HTTP_201_CREATED : Z := 201.
Definition HTTP_202_ACCEPTED : Z := 202.
Definition HTTP_204_NO_CONTENT : Z := 204.
Definition HTTP_400_BAD_REQUEST : Z := 400.
Definition HTTP_401_UNAUTHORIZED : Z := 401.
Definition HTTP_403_FORBIDDEN : Z := 403.
Definition HTTP_404_NOT_FOUND : Z := 404.
Definition HTTP_405_METHOD_NOT_ALLOWED : Z := 405.
Definition HTTP_500_INTERNAL_SERVER_ERROR : Z := 500.

Record Response := {
  response_data : option dict;
  status : Z;
  headers : gmap string string;
}.

(** [Response(data)], [Response(status=...)], [Response(data, status=...)] *)
Definition Response_of (d : option dict) (code : Z) : Response :=
  {| response_data := d; status := code; headers := ∅ |}.

(** The status the transport layer answers with: the response of the
    handler, or the one of the framework's exception mapping. *)
Definition status_of_exn (e : exn) : Z :=
  match e with
  | Http404 => HTTP_404_NOT_FOUND
  | PermissionDenied => HTTP_403_FORBIDDEN
  | NotAuthenticated => HTTP_401_UNAUTHORIZED
  | MethodNotAllowed => HTTP_405_METHOD_NOT_ALLOWED
  | ValidationError _ => HTTP_400_BAD_REQUEST
  | _ => HTTP_500_INTERNAL_SERVER_ERROR
  end.

Definition http_status (o : outcome Response) : Z :=
  match o with
  | Return r => status r
  | Raise e => status_of_exn e
  end.

(** ** The classes of the module *)

(** The serializer classes imported from [.serializers]. *)
Inductive SerializerClass :=
  | BuildCreateSerializer
  | BuildSerializer
  | EnvironmentVariableSerializer
  | NotificationSerializer
  | OrganizationSerializer
  | ProjectCreateSerializer
  | ProjectSerializer
  | ProjectUpdateSerializer
  | RedirectCreateSerializer
  | RedirectDetailSerializer
  | RemoteOrganizationSerializer
  | RemoteRepositorySerializer
  | SubprojectCreateSerializer
  | SubprojectDestroySerializer
  | SubprojectSerializer
  | UserSerializer
  | VersionSerializer
  | VersionUpdateSerializer.

(** The base classes the viewsets are composed from. *)
Inductive BaseClass :=
  | APIv3Settings
  | NestedViewSetMixin
  | ProjectQuerySetMixin
  | OrganizationQuerySetMixin
  | RemoteQuerySetMixin
  | UserQuerySetMixin
  | FlexFieldsMixin
  | ProjectImportMixin
  | UpdateChangeReasonMixin
  | UpdateMixin
  | CreateModelMixin
  | DestroyModelMixin
  | ListModelMixin
  | RetrieveModelMixin
  | UpdateModelMixin
  | GenericViewSet
  | ReadOnlyModelViewSet
  | ModelViewSet.

(** The action handlers a base class brings.  [UpdateMixin] only wraps
    the handlers of [UpdateModelMixin], which follows it in every class
    statement. *)
Definition handlers (b : BaseClass) : list string :=
  match b with
  | CreateModelMixin => ["create"]
  | DestroyModelMixin => ["destroy"]
  | ListModelMixin => ["list"]
  | RetrieveModelMixin => ["retrieve"]
  | UpdateModelMixin => ["update"; "partial_update"]
  | ReadOnlyModelViewSet => ["retrieve"; "list"]
  | ModelViewSet =>
      ["create"; "retrieve"; "update"; "partial_update"; "destroy"; "list"]
  | _ => []
  end.

Inductive ViewSet :=
  | ProjectsViewSetBase
  | SubprojectRelationshipViewSet
  | TranslationRelationshipViewSet
  | VersionsViewSet
  | BuildsViewSet
  | BuildsCreateViewSet
  | NotificationsForUserViewSet
  | NotificationsProjectViewSet
  | NotificationsBuildViewSet
  | RedirectsViewSet
  | EnvironmentVariablesViewSet
  | RemoteRepositoryViewSet
  | RemoteOrganizationViewSet
  | UsersViewSet
  | NotificationsUserViewSet
  | OrganizationsViewSetBase
  | OrganizationsProjectsViewSet
  | NotificationsOrganizationViewSet.

#[global] Instance ViewSet_eq_dec : EqDecision ViewSet.
Proof. solve_decision. Defined.

(** The class statements. *)
Definition bases (v : ViewSet) : list BaseClass :=
  match v with
  | ProjectsViewSetBase =>
      [APIv3Settings; NestedViewSetMixin; ProjectQuerySetMixin;
       FlexFieldsMixin; ProjectImportMixin; UpdateChangeReasonMixin;
       CreateModelMixin; UpdateMixin; UpdateModelMixin; ReadOnlyModelViewSet]
  | SubprojectRelationshipViewSet =>
      [APIv3Settings; NestedViewSetMixin; ProjectQuerySetMixin;
       FlexFieldsMixin; CreateModelMixin; DestroyModelMixin;
       ReadOnlyModelViewSet]
  | TranslationRelationshipViewSet =>
      [APIv3Settings; NestedViewSetMixin; ProjectQuerySetMixin;
       FlexFieldsMixin; ListModelMixin; GenericViewSet]
  | VersionsViewSet =>
      [APIv3Settings; NestedViewSetMixin; ProjectQuerySetMixin;
       FlexFieldsMixin; UpdateMixin; UpdateModelMixin; ReadOnlyModelViewSet]
  | BuildsViewSet =>
      [APIv3Settings; NestedViewSetMixin; ProjectQuerySetMixin;
       FlexFieldsMixin; ReadOnlyModelViewSet]
  | BuildsCreateViewSet =>
      (* class BuildsCreateViewSet(BuildsViewSet, CreateModelMixin) *)
      [APIv3Settings; NestedViewSetMixin; ProjectQuerySetMixin;
       FlexFieldsMixin; ReadOnlyModelViewSet; CreateModelMixin]
  | NotificationsForUserViewSet =>
      [APIv3Settings; FlexFieldsMixin; ListModelMixin; RetrieveModelMixin;
       UpdateMixin; UpdateModelMixin; GenericViewSet]
  | NotificationsProjectViewSet | NotificationsBuildViewSet =>
      [APIv3Settings; NestedViewSetMixin; ProjectQuerySetMixin;
       FlexFieldsMixin; ListModelMixin; RetrieveModelMixin; UpdateMixin;
       UpdateModelMixin; GenericViewSet]
  | RedirectsViewSet =>
      [APIv3Settings; NestedViewSetMixin; ProjectQuerySetMixin;
       FlexFieldsMixin; ModelViewSet]
  | EnvironmentVariablesViewSet =>
      [APIv3Settings; NestedViewSetMixin; ProjectQuerySetMixin;
       FlexFieldsMixin; CreateModelMixin; DestroyModelMixin;
       ReadOnlyModelViewSet]
  | RemoteRepositoryViewSet =>
      [APIv3Settings; RemoteQuerySetMixin; FlexFieldsMixin; ListModelMixin;
       GenericViewSet]
  | RemoteOrganizationViewSet =>
      [APIv3Settings; RemoteQuerySetMixin; ListModelMixin; GenericViewSet]
  | UsersViewSet => [APIv3Settings; GenericViewSet]
  | NotificationsUserViewSet =>
      [APIv3Settings; NestedViewSetMixin; UserQuerySetMixin; ListModelMixin;
       RetrieveModelMixin; UpdateMixin; UpdateModelMixin; GenericViewSet]
  | OrganizationsViewSetBase => [APIv3Settings; GenericViewSet]
  | OrganizationsProjectsViewSet =>
      [APIv3Settings; NestedViewSetMixin; OrganizationQuerySetMixin;
       ReadOnlyModelViewSet]
  | NotificationsOrganizationViewSet =>
      [APIv3Settings; NestedViewSetMixin; OrganizationQuerySetMixin;
       ListModelMixin; RetrieveModelMixin; UpdateMixin; UpdateModelMixin;
       GenericViewSet]
  end.

(** The methods decorated with [@action]. *)
Definition extra_actions (v : ViewSet) : list string :=
  match v with
  | ProjectsViewSetBase => ["superproject"]
  | _ => []
  end.

(** The actions a viewset answers: the router only builds a route for
    an action the class has a handler for. *)
Definition routed_actions (v : ViewSet) : list string :=
  concat (handlers <$> bases v) ++ extra_actions v.

(** The [serializer_class] attribute, where the class sets one. *)
Definition serializer_class (v : ViewSet) : option SerializerClass :=
  match v with
  | TranslationRelationshipViewSet => Some ProjectSerializer
  | BuildsViewSet | BuildsCreateViewSet => Some BuildSerializer
  | NotificationsForUserViewSet | NotificationsProjectViewSet
  | NotificationsBuildViewSet | NotificationsUserViewSet
  | NotificationsOrganizationViewSet => Some NotificationSerializer
  | EnvironmentVariablesViewSet => Some EnvironmentVariableSerializer
  | RemoteRepositoryViewSet => Some RemoteRepositorySerializer
  | RemoteOrganizationViewSet => Some RemoteOrganizationSerializer
  | UsersViewSet => Some UserSerializer
  | OrganizationsViewSetBase => Some OrganizationSerializer
  | OrganizationsProjectsViewSet => Some ProjectSerializer
  | ProjectsViewSetBase | SubprojectRelationshipViewSet | VersionsViewSet
  | RedirectsViewSet => None
  end.

(** [x in (a, b, ...)] on strings *)
Definition str_in (x : string) (xs : list string) : bool :=
  bool_decide (x ∈ xs).

(** ** The framework's generic view *)

Module GenericAPIView.

(** [get_object_or_404(queryset, **filter_kwargs)]: [queryset.get]
    with [DoesNotExist] turned into [Http404]. *)
Definition get_object_or_404 {A} (queryset : list A) (lookup : A → bool)
    : outcome A :=
  match List.filter lookup queryset with
  | [] => Raise Http404
  | [obj] => Return obj
  | _ => Raise MultipleObjectsReturned
  end.

(** [permission_denied(request)]: a caller without credentials is
    answered as not authenticated, another one as denied. *)
Definition permission_denied (self : View) : exn :=
  if is_authenticated (user (request self)) then PermissionDenied
  else NotAuthenticated.

(** [get_object]: look the object up in the scoped queryset by
    [lookup_field = kwargs[lookup_url_kwarg]], then check the object
    permissions.  A request carries no query string here, so
    [filter_queryset] keeps the queryset as it is. *)
Definition get_object {A} (self : View) (queryset : list A)
    (lookup_field : A → string) (lookup_url_kwarg : string)
    (has_object_permission : A → bool) : outcome A :=
  match kwargs self !! lookup_url_kwarg with
  | None => Raise (AssertionError lookup_url_kwarg)
  | Some value =>
      match get_object_or_404 queryset
              (λ obj, bool_decide (lookup_field obj = value)) with
      | Return obj =>
          if has_object_permission obj then Return obj
          else Raise (permission_denied self)
      | Raise e => Raise e
      end
  end.

(** The actions the router puts on one path: the collection path, the
    detail path, or a path of its own for an [@action]. *)
Definition same_path (action : string) : list string :=
  if str_in action ["list"; "create"] then ["list"; "create"]
  else if str_in action ["retrieve"; "update"; "partial_update"; "destroy"]
  then ["retrieve"; "update"; "partial_update"; "destroy"]
  else [action].

(** The routing step of a request for [action] at viewset [v].  The
    router builds the route of a path when the class has a handler for
    one of its actions: a request to a path without route is answered
    with not-found, a request to a routed path with a method the class
    has no handler for is answered with method-not-allowed. *)
Definition resolve (v : ViewSet) (action : string) : outcome unit :=
  if str_in action (routed_actions v) then Return ()
  else if existsb (λ a, str_in a (routed_actions v)) (same_path action)
  then Raise MethodNotAllowed
  else Raise Http404.

End GenericAPIView.

(** A serializer object: [is_valid] fills [validated_data], [save]
    fills [instance]. *)
Record ModelSerializer (I : Type) := {
  initial_data : dict;
  validated_data : option (gmap string pyobj);
  instance : option I;
}.
Arguments initial_data {I} _.
Arguments validated_data {I} _.
Arguments instance {I} _.

(** ** Collaborators

    Code the handlers call that lives outside this module: the
    serializers, the mixins of [.mixins] and [projects.views.mixins],
    the models and [core.utils.trigger_build]. *)
Class Collaborators := {
  (** [XSerializer(obj).data] *)
  BuildSerializer_data : option Build → Database → outcome dict;
  ProjectSerializer_data : option Project → Database → outcome dict;
  VersionSerializer_data : option Version → Database → outcome dict;
  (** [ProjectCreateSerializer]: validation, [save()] and [data] *)
  ProjectCreateSerializer_run_validation :
    dict → Database → outcome (gmap string pyobj);
  ProjectCreateSerializer_save : gmap string pyobj → M Project;
  ProjectCreateSerializer_data :
    ModelSerializer Project → Database → outcome dict;
  (** [get_success_headers] of [CreateModelMixin] *)
  get_success_headers : dict → gmap string string;
  (** [ProjectQuerySetMixin._get_parent_project] and
      [_get_parent_version] *)
  _get_parent_project : View → Database → outcome Project;
  _get_parent_version : View → Database → outcome Version;
  (** [ProjectImportMixin.finish_import_project] *)
  finish_import_project : Request → Project → M unit;
  (** [project.superprojects] and [relationship.parent] *)
  Project_superprojects :
    Project → Database → outcome (list ProjectRelationship);
  ProjectRelationship_parent :
    ProjectRelationship → Database → outcome Project;
  (** [VersionsViewSet]: the inherited [get_object] and [update] *)
  VersionsViewSet_get_object : View → Database → outcome Version;
  VersionsViewSet_super_update : View → M Response;
  (** [Version.post_save] *)
  Version_post_save : Version → bool → M unit;
  (** [trigger_build(project, version=version)]: the task and the
      build, or [(None, None)] *)
  trigger_build : Project → Version → M (option Z * option Build);
}.

(** ** Query scoping and permissions of the project family *)

Module ProjectQuerySet.

Definition is_admin (u : User) (p : Project) : bool :=
  bool_decide (user_pk u ∈ users p).

(** Modelled from the spec: [ProjectQuerySetMixin.admin_projects] is
    in [.mixins], which is not under src; the spec has it yield "the
    set of projects the caller administers". *)
Definition admin_projects (u : User) (db : Database) : list Project :=
  List.filter (is_admin u) (projects db).

(** Modelled from the spec: [super().get_queryset()] of
    [ProjectsViewSetBase] runs through [NestedViewSetMixin] and
    [ProjectQuerySetMixin], which are not under src; the spec has the
    scoping yield "the maximal set of instances the caller may
    observe", with "read access to public projects without admin". *)
Definition get_queryset (self : View) (db : Database) : list Project :=
  List.filter
    (λ p, bool_decide (privacy_level p = Public)
          || is_admin (user (request self)) p)
    (projects db).

(** [list], [retrieve] and the read-only custom actions *)
Definition is_read_action (a : string) : bool :=
  str_in a ["list"; "retrieve"; "superproject"].

(** Modelled from the spec: [CommonPermissions] is in
    [.permissions], which is not under src; the spec has it grant
    when the "caller must be authenticated AND (is admin of the
    resolved project OR the base policy for that action grants
    access, e.g. read access to public projects without admin)". *)
Definition CommonPermissions (self : View) (p : Project) : bool :=
  is_authenticated (user (request self))
  && (is_admin (user (request self)) p
      || (is_read_action (action self)
          && bool_decide (privacy_level p = Public))).

End ProjectQuerySet.

(** ** The viewsets *)

Module ProjectsViewSetBase.

Definition lookup_url_kwarg : string := "project_slug".

(** The serializer of an action; [None] is the result of falling off
    the end of the method. *)
Definition get_serializer_class (self : View) : option SerializerClass :=
  if str_in (action self) ["list"; "retrieve"; "superproject"] then
    Some ProjectSerializer
  else if bool_decide (action self = "create") then
    Some ProjectCreateSerializer
  else if str_in (action self) ["update"; "partial_update"] then
    Some ProjectUpdateSerializer
  else None.

(** [queryset.prefetch_related(...)] fetches the relations ahead and
    leaves the rows of the queryset as they are. *)
Definition prefetch_related {A} (queryset : list A) (lookups : list string)
    : list A := queryset.

Definition get_queryset (self : View) (db : Database) : list Project :=
  if bool_decide (basename self = "projects")
     && bool_decide (action self = "list") then
    ProjectQuerySet.admin_projects (user (request self)) db
  else
    let queryset := ProjectQuerySet.get_queryset self db in
    prefetch_related queryset ["related_projects"; "domains"; "tags"; "users"].

(** The permission classes are checked on the view before a handler
    runs, and a caller without credentials is refused there; the
    handlers below start with [get_object], so the check stands at its
    head. *)
Definition get_object (self : View) (db : Database) : outcome Project :=
  if is_authenticated (user (request self)) then
    GenericAPIView.get_object self (get_queryset self db) project_slug
      lookup_url_kwarg (ProjectQuerySet.CommonPermissions self)
  else Raise NotAuthenticated.

Section Handlers.
Context `{Collaborators}.

(** [retrieve] of [RetrieveModelMixin] *)
Definition retrieve (self : View) : M Response :=
  instance ← query (get_object self);
  d ← query (ProjectSerializer_data (Some instance));
  mret (Response_of (Some d) HTTP_200_OK).

Definition get_serializer (d : dict) : ModelSerializer Project :=
  {| initial_data := d; validated_data := None; instance := None |}.

(** [serializer.is_valid(raise_exception=True)] *)
Definition is_valid (serializer : ModelSerializer Project)
    : M (ModelSerializer Project) :=
  vd ← query (ProjectCreateSerializer_run_validation
                (initial_data serializer));
  mret {| initial_data := initial_data serializer;
          validated_data := Some vd;
          instance := instance serializer |}.

(** Modelled from the spec: [super().perform_create(serializer)]
    lands in [UpdateChangeReasonMixin], which is in [.mixins] and
    not under src; the spec has the create "persist" the validated
    project, and the caller binds the result as the project. *)
Definition super_perform_create (serializer : ModelSerializer Project)
    : M (ModelSerializer Project * Project) :=
  match validated_data serializer with
  | None => raise (AssertionError "You must call `.is_valid()` before calling `.save()`.")
  | Some vd =>
      obj ← ProjectCreateSerializer_save vd;
      mret ({| initial_data := initial_data serializer;
               validated_data := Some vd;
               instance := Some obj |}, obj)
  end.

(** Returns the serializer, which the method changes in place. *)
Definition perform_create (self : View)
    (serializer : ModelSerializer Project) : M (ModelSerializer Project) :=
  '(serializer, project) ← super_perform_create serializer;
  finish_import_project (request self) project;;
  mret serializer.

Definition create (self : View) : M Response :=
  let serializer := get_serializer (data (request self)) in
  serializer ← is_valid serializer;
  serializer ← perform_create self serializer;
  d ← query (ProjectCreateSerializer_data serializer);
  let headers := get_success_headers d in
  d ← query (ProjectSerializer_data (instance serializer));
  mret {| response_data := Some d;
          status := HTTP_201_CREATED;
          headers := headers |}.

(** [queryset.first()] *)
Definition first {A} (queryset : list A) : option A := head queryset.

(** [project.superprojects.first().parent] *)
Definition superproject_lookup (project : Project) : M Project :=
  relationships ← query (Project_superprojects project);
  match first relationships with
  | None =>
      raise (AttributeError "'NoneType' object has no attribute 'parent'")
  | Some relationship => query (ProjectRelationship_parent relationship)
  end.

Definition superproject (self : View) : M Response :=
  project ← query (get_object self);
  try_except_Exception
    (superproject ← superproject_lookup project;
     d ← query (ProjectSerializer_data (Some superproject));
     mret (Response_of (Some d) HTTP_200_OK))
    (mret (Response_of None HTTP_404_NOT_FOUND)).

End Handlers.

End ProjectsViewSetBase.

Module SubprojectRelationshipViewSet.

Definition get_serializer_class (self : View) : option SerializerClass :=
  if bool_decide (action self = "create") then
    Some SubprojectCreateSerializer
  else if bool_decide (action self = "destroy") then
    Some SubprojectDestroySerializer
  else Some SubprojectSerializer.

End SubprojectRelationshipViewSet.

Module VersionsViewSet.

Definition get_serializer_class (self : View) : option SerializerClass :=
  if str_in (action self) ["list"; "retrieve"] then Some VersionSerializer
  else Some VersionUpdateSerializer.

Section Handlers.
Context `{Collaborators}.

Definition update (self : View) : M Response :=
  (* Get the current value before updating. *)
  version ← query (VersionsViewSet_get_object self);
  let was_active := active version in
  result ← VersionsViewSet_super_update self;
  (* Get the updated version. *)
  version ← query (VersionsViewSet_get_object self);
  Version_post_save version was_active;;
  mret result.

End Handlers.

End VersionsViewSet.

Module BuildsCreateViewSet.

Definition get_serializer_class (self : View) : option SerializerClass :=
  if bool_decide (action self = "create") then Some BuildCreateSerializer
  else serializer_class BuildsCreateViewSet.

(** [bool(build)]: [None] is false, a model instance is true. *)
Definition truthy (build : option Build) : bool :=
  match build with
  | Some _ => true
  | None => false
  end.

(** [build.version] *)
Definition getattr_version (build : option Build) : M Version :=
  match build with
  | Some b => mret (version b)
  | None =>
      raise (AttributeError "'NoneType' object has no attribute 'version'")
  end.

Section Handlers.
Context `{Collaborators}.

Definition create (self : View) : M Response :=
  project ← query (_get_parent_project self);
  version ← query (_get_parent_version self);
  '(_, build) ← trigger_build project version;
  build_data ← query (BuildSerializer_data build);
  project_data ← query (ProjectSerializer_data (Some project));
  build_version ← getattr_version build;
  version_data ← query (VersionSerializer_data (Some build_version));
  let data : dict :=
    <["version" := JDict version_data]>
      (<["project" := JDict project_data]>
         (<["build" := JDict build_data]> ∅)) in
  if truthy build then
    mret (Response_of (Some (<["triggered" := JBool true]> data))
            HTTP_202_ACCEPTED)
  else
    mret (Response_of (Some (<["triggered" := JBool false]> data))
            HTTP_400_BAD_REQUEST).

End Handlers.

End BuildsCreateViewSet.

(** ** Rows created through the project path *)

(** The tables of the two models that are created under a project. *)
Inductive Table := RedirectTable | EnvironmentVariableTable.

Definition rows (t : Table) (db : Database) : list Row :=
  match t with
  | RedirectTable => redirects db
  | EnvironmentVariableTable => environmentvariables db
  end.

Definition set_rows (t : Table) (rs : list Row) (db : Database) : Database :=
  match t with
  | RedirectTable =>
      {| projects := projects db; relationships := relationships db;
         versions := versions db; builds := builds db;
         redirects := rs;
         environmentvariables := environmentvariables db;
         notifications := notifications db; auth_users := auth_users db;
         organizations := organizations db; journal := journal db |}
  | EnvironmentVariableTable =>
      {| projects := projects db; relationships := relationships db;
         versions := versions db; builds := builds db;
         redirects := redirects db;
         environmentvariables := rs;
         notifications := notifications db; auth_users := auth_users db;
         organizations := organizations db; journal := journal db |}
  end.

Module ModelSerializer_.

(** The primary key the database gives the next row. *)
Definition next_pk (rs : list Row) : Z :=
  1 + foldr Z.max 0 (row_pk <$> rs).

(** Modelled from the spec: the models [Redirect] and
    [EnvironmentVariable] and the [save()] of their serializers are
    outside src; the spec has such a row belong "to exactly one
    Project" and has the create persist the validated data with the
    "parent Project ... injected into validated data after schema
    validation, before persistence".  The row takes its project from
    the ["project"] entry and keeps the other entries as its columns,
    as [Model.objects.create] does with the entries of [validated_data]
    as keyword arguments. *)
Definition objects_create (t : Table) (kw : gmap string pyobj) : M Row :=
  λ db,
    match kw !! "project" with
    | Some (PProject p) =>
        let obj := {| row_pk := next_pk (rows t db);
                      row_project := p;
                      columns := delete "project" kw |} in
        (set_rows t (rows t db ++ [obj]) db, Return obj)
    | Some (PJson _) =>
        (db, Raise (ValueError "must be a Project instance"))
    | None =>
        (db, Raise (IntegrityError "NOT NULL constraint failed: project_id"))
    end.

(** [serializer.validated_data], which is read before the argument
    of [update] is computed *)
Definition get_validated_data (serializer : ModelSerializer Row)
    : M (gmap string pyobj) :=
  match validated_data serializer with
  | None =>
      raise (AssertionError "You must call `.is_valid()` before accessing `.validated_data`.")
  | Some vd => mret vd
  end.

(** [validated.update({key: value})] on the dictionary [validated]
    of the serializer, which is changed in place *)
Definition update (validated : gmap string pyobj) (key : string)
    (value : pyobj) (serializer : ModelSerializer Row)
    : ModelSerializer Row :=
  {| initial_data := initial_data serializer;
     validated_data := Some (<[key := value]> validated);
     instance := instance serializer |}.

(** [serializer.save()] on a serializer without instance:
    [self.instance = self.create(validated_data)]. *)
Definition save (t : Table) (serializer : ModelSerializer Row)
    : M (ModelSerializer Row) :=
  match validated_data serializer with
  | None =>
      raise (AssertionError "You must call `.is_valid()` before calling `.save()`.")
  | Some vd =>
      obj ← objects_create t vd;
      mret {| initial_data := initial_data serializer;
              validated_data := Some vd;
              instance := Some obj |}
  end.

End ModelSerializer_.

Module RedirectsViewSet.

Definition get_serializer_class (self : View) : option SerializerClass :=
  if str_in (action self) ["create"; "update"; "partial_update"] then
    Some RedirectCreateSerializer
  else Some RedirectDetailSerializer.

Section Handlers.
Context `{Collaborators}.

Definition perform_create (self : View) (serializer : ModelSerializer Row)
    : M (ModelSerializer Row) :=
  (* Inject the project from the URL into the serializer *)
  validated ← ModelSerializer_.get_validated_data serializer;
  project ← query (_get_parent_project self);
  let serializer :=
    ModelSerializer_.update validated "project" (PProject project)
      serializer in
  ModelSerializer_.save RedirectTable serializer.

End Handlers.

End RedirectsViewSet.

Module EnvironmentVariablesViewSet.

Section Handlers.
Context `{Collaborators}.

Definition perform_create (self : View) (serializer : ModelSerializer Row)
    : M (ModelSerializer Row) :=
  (* Inject the project from the URL into the serializer *)
  validated ← ModelSerializer_.get_validated_data serializer;
  project ← query (_get_parent_project self);
  let serializer :=
    ModelSerializer_.update validated "project" (PProject project)
      serializer in
  ModelSerializer_.save EnvironmentVariableTable serializer.

End Handlers.

End EnvironmentVariablesViewSet.

Module NotificationsUserViewSet.

(** [ContentType.objects.get_for_model(model)] *)
Definition get_for_model (m : ModelClass) : ContentType :=
  {| model_class := m |}.

(** [queryset = Notification.objects.all()] *)
Definition queryset (db : Database) : list Notification := notifications db.

Definition get_queryset (self : View) (db : Database) : list Notification :=
  let content_type := get_for_model UserModel in
  List.filter
    (λ n, bool_decide (attached_to_content_type n = content_type)
          && bool_decide (attached_to_id n = user_pk (user (request self))))
    (queryset db).

End NotificationsUserViewSet.

Module UsersViewSet.

(** [queryset = User.objects.none()] *)
Definition queryset (db : Database) : list User := [].

End UsersViewSet.

Module OrganizationsViewSetBase.

(** [queryset = Organization.objects.none()] *)
Definition queryset (db : Database) : list Organization := [].

End OrganizationsViewSetBase.

(** ** Serializer resolution of every viewset

    A class that does not override [get_serializer_class] inherits the
    one of the generic view, which answers its [serializer_class]. *)
Definition get_serializer_class (v : ViewSet) (self : View)
    : option SerializerClass :=
  match v with
  | ProjectsViewSetBase => ProjectsViewSetBase.get_serializer_class self
  | SubprojectRelationshipViewSet =>
      SubprojectRelationshipViewSet.get_serializer_class self
  | VersionsViewSet => VersionsViewSet.get_serializer_class self
  | BuildsCreateViewSet => BuildsCreateViewSet.get_serializer_class self
  | RedirectsViewSet => RedirectsViewSet.get_serializer_class self
  | _ => serializer_class v
  end.

(** The collaborators [C] with the first component of every result of
    [trigger_build] replaced by its image under [g]. *)
Definition relabel_task (g : option Z → option Z) (C : Collaborators)
    : Collaborators :=
  {| BuildSerializer_data := @BuildSerializer_data C;
     ProjectSerializer_data := @ProjectSerializer_data C;
     VersionSerializer_data := @VersionSerializer_data C;
     ProjectCreateSerializer_run_validation :=
       @ProjectCreateSerializer_run_validation C;
     ProjectCreateSerializer_save := @ProjectCreateSerializer_save C;
     ProjectCreateSerializer_data := @ProjectCreateSerializer_data C;
     get_success_headers := @get_success_headers C;
     _get_parent_project := @_get_parent_project C;
     _get_parent_version := @_get_parent_version C;
     finish_import_project := @finish_import_project C;
     Project_superprojects := @Project_superprojects C;
     ProjectRelationship_parent := @ProjectRelationship_parent C;
     VersionsViewSet_get_object := @VersionsViewSet_get_object C;
     VersionsViewSet_super_update := @VersionsViewSet_super_update C;
     Version_post_save := @Version_post_save C;
     trigger_build := λ project version db,
       match @trigger_build C project version db with
       | (db', Return (task, build)) => (db', Return (g task, build))
       | (db', Raise e) => (db', Raise e)
       end |}.

(** ** A small installation

    Concrete collaborators and a database, on which the handlers can be
    run. *)

Module Demo.

Definition with_projects (ps : list Project) (db : Database) : Database :=
  {| projects := ps; relationships := relationships db;
     versions := versions db; builds := builds db;
     redirects := redirects db;
     environmentvariables := environmentvariables db;
     notifications := notifications db; auth_users := auth_users db;
     organizations := organizations db; journal := journal db |}.

Definition with_versions (vs : list Version) (db : Database) : Database :=
  {| projects := projects db; relationships := relationships db;
     versions := vs; builds := builds db;
     redirects := redirects db;
     environmentvariables := environmentvariables db;
     notifications := notifications db; auth_users := auth_users db;
     organizations := organizations db; journal := journal db |}.

Definition with_builds (bs : list Build) (db : Database) : Database :=
  {| projects := projects db; relationships := relationships db;
     versions := versions db; builds := bs;
     redirects := redirects db;
     environmentvariables := environmentvariables db;
     notifications := notifications db; auth_users := auth_users db;
     organizations := organizations db; journal := journal db |}.

Definition record (c : call) : M unit :=
  λ db,
    ({| projects := projects db; relationships := relationships db;
        versions := versions db; builds := builds db;
        redirects := redirects db;
        environmentvariables := environmentvariables db;
        notifications := notifications db; auth_users := auth_users db;
        organizations := organizations db;
        journal := journal db ++ [c] |}, Return ()).

Definition project_data (p : option Project) : dict :=
  match p with
  | Some p => {[ "slug" := JStr (project_slug p) ]}
  | None => ∅
  end.

Definition version_data (v : option Version) : dict :=
  match v with
  | Some v =>
      <["active" := JBool (active v)]> {[ "slug" := JStr (version_slug v) ]}
  | None => ∅
  end.

Definition build_data (b : option Build) : dict :=
  match b with
  | Some b => {[ "id" := JInt (build_pk b) ]}
  | None => ∅
  end.

Definition run_validation (d : dict) : outcome (gmap string pyobj) :=
  match d !! "name" with
  | Some (JStr name) => Return {[ "name" := PJson (JStr name) ]}
  | _ => Raise (ValidationError ["name"])
  end.

Definition save_project (vd : gmap string pyobj) : M Project :=
  λ db,
    match vd !! "name" with
    | Some (PJson (JStr name)) =>
        let p := {| project_slug := name; privacy_level := Public;
                    users := [] |} in
        (with_projects (projects db ++ [p]) db, Return p)
    | _ => (db, Raise (IntegrityError "name"))
    end.

Definition parent_project (self : View) (db : Database) : outcome Project :=
  match kwargs self !! "project_slug" with
  | Some slug =>
      GenericAPIView.get_object_or_404 (projects db)
        (λ p, bool_decide (project_slug p = slug))
  | None => Raise Http404
  end.

Definition find_version (self : View) (db : Database) : outcome Version :=
  match kwargs self !! "project_slug", kwargs self !! "version_slug" with
  | Some project, Some slug =>
      GenericAPIView.get_object_or_404 (versions db)
        (λ v, bool_decide (version_project v = project)
              && bool_decide (version_slug v = slug))
  | _, _ => Raise Http404
  end.

Definition superprojects (p : Project) (db : Database)
    : outcome (list ProjectRelationship) :=
  Return (List.filter (λ r, bool_decide (child r = project_slug p))
            (relationships db)).

Definition relationship_parent (r : ProjectRelationship) (db : Database)
    : outcome Project :=
  match List.filter (λ p, bool_decide (project_slug p = parent r))
          (projects db) with
  | p :: _ => Return p
  | [] => Raise (DoesNotExist "Project")
  end.

(** Writes the [active] flag of the request body to the version. *)
Definition write_active (self : View) (v : Version) : Version :=
  match kwargs self !! "project_slug", kwargs self !! "version_slug",
        data (request self) !! "active" with
  | Some project, Some slug, Some (JBool b) =>
      if bool_decide (version_project v = project)
         && bool_decide (version_slug v = slug)
      then {| version_slug := version_slug v;
              version_project := version_project v;
              active := b; hidden := hidden v |}
      else v
  | _, _, _ => v
  end.

Definition super_update (self : View) : M Response :=
  λ db,
    (with_versions (write_active self <$> versions db) db,
     Return (Response_of None HTTP_204_NO_CONTENT)).

(** Declines while the version has a build, schedules one otherwise. *)
Definition gateway (p : Project) (v : Version)
    : M (option Z * option Build) :=
  λ db,
    if existsb (λ b, bool_decide (version b = v)) (builds db) then
      (db, Return (None, None))
    else
      let b := {| build_pk := 1 + Z.of_nat (length (builds db));
                  build_project := project_slug p; version := v |} in
      ((record (TriggerBuild p v) (with_builds (builds db ++ [b]) db)).1,
       Return (Some 7, Some b)).

Definition finish_import (req : Request) (p : Project) : M unit :=
  record (FinishImport p).

Definition failing_finish_import (req : Request) (p : Project) : M unit :=
  raise (RuntimeError "finish_import_project").

Definition collaborators
    (hook : Request → Project → M unit)
    (trigger : Project → Version → M (option Z * option Build))
    : Collaborators :=
  {| BuildSerializer_data := λ b _, Return (build_data b);
     ProjectSerializer_data := λ p _, Return (project_data p);
     VersionSerializer_data := λ v _, Return (version_data v);
     ProjectCreateSerializer_run_validation := λ d _, run_validation d;
     ProjectCreateSerializer_save := save_project;
     ProjectCreateSerializer_data := λ s _, Return (project_data (instance s));
     get_success_headers := λ _, ∅;
     _get_parent_project := parent_project;
     _get_parent_version := find_version;
     finish_import_project := hook;
     Project_superprojects := superprojects;
     ProjectRelationship_parent := relationship_parent;
     VersionsViewSet_get_object := find_version;
     VersionsViewSet_super_update := super_update;
     Version_post_save := λ v was_active, record (PostSave v was_active);
     trigger_build := trigger |}.

Definition alice : User :=
  {| user_pk := 1; username := "alice"; is_authenticated := true |}.
Definition bob : User :=
  {| user_pk := 2; username := "bob"; is_authenticated := true |}.

Definition pip : Project :=
  {| project_slug := "pip"; privacy_level := Public; users := [1] |}.
Definition docs : Project :=
  {| project_slug := "docs"; privacy_level := Public; users := [2] |}.
Definition vault : Project :=
  {| project_slug := "vault"; privacy_level := Private; users := [2] |}.

Definition latest : Version :=
  {| version_slug := "latest"; version_project := "pip";
     active := true; hidden := false |}.
Definition stable : Version :=
  {| version_slug := "stable"; version_project := "pip";
     active := true; hidden := false |}.

Definition running : Build :=
  {| build_pk := 1; build_project := "pip"; version := stable |}.

Definition for_alice : Notification :=
  {| notification_pk := 1;
     attached_to_content_type := {| model_class := UserModel |};
     attached_to_id := 1; message_id := "welcome" |}.
Definition for_build_1 : Notification :=
  {| notification_pk := 2;
     attached_to_content_type := {| model_class := BuildModel |};
     attached_to_id := 1; message_id := "build-failed" |}.
Definition for_bob : Notification :=
  {| notification_pk := 3;
     attached_to_content_type := {| model_class := UserModel |};
     attached_to_id := 2; message_id := "welcome" |}.

Definition db0 : Database :=
  {| projects := [pip; docs; vault];
     relationships := [{| parent := "pip"; child := "docs"; alias := "d" |}];
     versions := [latest; stable];
     builds := [running];
     redirects := [];
     environmentvariables := [];
     notifications := [for_alice; for_build_1; for_bob];
     auth_users := [alice; bob];
     organizations := [];
     journal := [] |}.

Definition view (base act : string) (det : bool) (u : User) (body : dict)
    (kw : gmap string string) : View :=
  {| basename := base; action := act; detail := det;
     request := {| user := u; data := body |}; kwargs := kw |}.

(** The installation, and the one whose import hook fails. *)
Definition installation : Collaborators :=
  collaborators finish_import gateway.
Definition failing_installation : Collaborators :=
  collaborators failing_finish_import gateway.

Definition pip_latest : gmap string string :=
  <["version_slug" := "latest"]> {[ "project_slug" := "pip" ]}.
Definition pip_stable : gmap string string :=
  <["version_slug" := "stable"]> {[ "project_slug" := "pip" ]}.

(** [POST /projects/pip/versions/latest/builds/] and the same for
    [stable], which has a build already. *)
Definition builds_create_latest : View :=
  view "projects-versions-builds" "create" false alice ∅ pip_latest.
Definition builds_create_stable : View :=
  view "projects-versions-builds" "create" false alice ∅ pip_stable.

Definition new_build : Build :=
  {| build_pk := 2; build_project := "pip"; version := latest |}.
Definition db_triggered : Database :=
  (gateway pip latest db0).1.
Definition accepted_response : Response :=
  Response_of
    (Some (<["triggered" := JBool true]>
             (<["version" := JDict (version_data (Some latest))]>
                (<["project" := JDict (project_data (Some pip))]>
                   (<["build" := JDict (build_data (Some new_build))]> ∅)))))
    HTTP_202_ACCEPTED.

(** [PATCH /projects/pip/versions/latest/] with [active: false] *)
Definition versions_update_latest : View :=
  view "projects-versions" "update" true alice
    {[ "active" := JBool false ]} pip_latest.
Definition latest_inactive : Version :=
  {| version_slug := "latest"; version_project := "pip";
     active := false; hidden := false |}.
Definition db_updated : Database :=
  with_versions [latest_inactive; stable] db0.

(** [POST /projects/] with [name: new] *)
Definition projects_create : View :=
  view "projects" "create" false alice {[ "name" := JStr "new" ]} ∅.
Definition new_project : Project :=
  {| project_slug := "new"; privacy_level := Public; users := [] |}.
Definition db_imported : Database :=
  with_projects [pip; docs; vault; new_project] db0.

(** [GET /projects/] and [GET /projects/docs/] by alice, who
    administers [pip] only *)
Definition projects_list : View :=
  view "projects" "list" false alice ∅ ∅.
Definition projects_retrieve_docs : View :=
  view "projects" "retrieve" true alice ∅ {[ "project_slug" := "docs" ]}.


(** [POST /projects/pip/redirects/] whose validated data name the
    project [vault] *)
Definition redirects_create : View :=
  view "projects-redirects" "create" false alice ∅
    {[ "project_slug" := "pip" ]}.
Definition submitted : gmap string pyobj :=
  <["project" := PProject vault]> {[ "from_url" := PJson (JStr "/old") ]}.
Definition validated : ModelSerializer Row :=
  {| initial_data := ∅; validated_data := Some submitted; instance := None |}.

(** [GET /users/alice/notifications/] by alice *)
Definition users_notifications : View :=
  view "users-notifications" "list" false alice ∅ {[ "username" := "alice" ]}.

(** [DELETE /projects/pip/versions/latest/], which the viewset has no
    handler for *)
Definition versions_destroy : View :=
  view "projects-versions" "destroy" true alice ∅ pip_latest.

End Demo.

#[global] Instance Notification_eq_dec : EqDecision Notification.
Proof. solve_decision. Defined.

(** ** The body the two [perform_create] share

    [RedirectsViewSet.perform_create] and
    [EnvironmentVariablesViewSet.perform_create] are this body on their
    own table. *)

Section InjectAndSave.
Context `{C : Collaborators}.

Definition inject_and_save (t : Table) (self : View) (s : ModelSerializer Row)
    : M (ModelSerializer Row) :=
  validated ← ModelSerializer_.get_validated_data s;
  project ← query (_get_parent_project self);
  let serializer :=
    ModelSerializer_.update validated "project" (PProject project) s in
  ModelSerializer_.save t serializer.

End InjectAndSave.

(** ** Subprojects *)

(** Values held by the context of a serializer. *)
Inductive ctxval : Type :=
  | CtxRequest (r : Request)
  | CtxView (self : View)
  | CtxFormat (format : option string)
  | CtxProject (p : Project).

(** The collaborators of the subproject handlers: the context of the
    generic view and the two serializers of a relationship. *)
Class SubprojectCollaborators := {
  (** [super().get_serializer_context()] *)
  super_get_serializer_context : View → gmap string ctxval;
  (** [SubprojectCreateSerializer]: validation under a context,
      [create(validated_data)] and [data] *)
  SubprojectCreateSerializer_run_validation :
    gmap string ctxval → dict → Database → outcome (gmap string pyobj);
  SubprojectCreateSerializer_create :
    gmap string pyobj → M ProjectRelationship;
  SubprojectCreateSerializer_data :
    ModelSerializer ProjectRelationship → Database → outcome dict;
  (** [SubprojectSerializer(instance=obj).data] *)
  SubprojectSerializer_data :
    option ProjectRelationship → Database → outcome dict;
}.

Module SubprojectRelationship.

Section Handlers.
Context `{C : Collaborators} `{S : SubprojectCollaborators}.

Definition get_serializer_context (self : View) (db : Database)
    : outcome (gmap string ctxval) :=
  let context := super_get_serializer_context self in
  match _get_parent_project self db with
  | Return project => Return (<["parent" := CtxProject project]> context)
  | Raise e => Raise e
  end.

(** [serializer.save] with keyword arguments, on a serializer without
    instance: the keyword arguments are laid over the validated data
    and the result goes to [create]. *)
Definition save (serializer : ModelSerializer ProjectRelationship)
    (kw : gmap string pyobj) : M (ModelSerializer ProjectRelationship) :=
  match validated_data serializer with
  | None =>
      raise (AssertionError "You must call `.is_valid()` before calling `.save()`.")
  | Some vd =>
      obj ← SubprojectCreateSerializer_create (kw ∪ vd);
      mret {| initial_data := initial_data serializer;
              validated_data := Some vd;
              instance := Some obj |}
  end.

Definition create (self : View) : M Response :=
  parent ← query (_get_parent_project self);
  (* self.get_serializer(data=request.data) builds the context *)
  context ← query (get_serializer_context self);
  let serializer :=
    {| initial_data := data (request self); validated_data := None;
       instance := None |} in
  (* serializer.is_valid(raise_exception=True) *)
  vd ← query (SubprojectCreateSerializer_run_validation context
                (initial_data serializer));
  let serializer :=
    {| initial_data := initial_data serializer; validated_data := Some vd;
       instance := instance serializer |} in
  serializer ← save serializer {[ "parent" := PProject parent ]};
  d ← query (SubprojectCreateSerializer_data serializer);
  let headers := get_success_headers d in
  (* Use serializer that fully render a the subproject *)
  d ← query (SubprojectSerializer_data (instance serializer));
  mret {| response_data := Some d;
          status := HTTP_201_CREATED;
          headers := headers |}.

End Handlers.

End SubprojectRelationship.

(** ** Remote repositories *)

Record RemoteRepository := {
  remote_repository_pk : Z;
  full_name : string;
  (** [organization__name]; [None] without organization *)
  organization_name : option string;
}.

#[global] Instance RemoteRepository_eq_dec : EqDecision RemoteRepository.
Proof. solve_decision. Defined.

Record RemoteRepositoryRelation := {
  remote_repository : Z;
  relation_user : Z;
  admin : bool;
}.

Record RemoteTables := {
  remote_repositories : list RemoteRepository;
  remote_relations : list RemoteRepositoryRelation;
}.

(** A row of the queryset after [annotate(_admin=...)]. *)
Record AnnotatedRepository := {
  repository : RemoteRepository;
  _admin : bool;
}.

#[global] Instance AnnotatedRepository_eq_dec : EqDecision AnnotatedRepository.
Proof. solve_decision. Defined.

(** The collaborators of the remote listing: the queryset of
    [RemoteQuerySetMixin], [is_expanded] of the flex fields and the
    order of the database on the keys of [order_by]. *)
Class RemoteCollaborators := {
  RemoteQuerySetMixin_get_queryset :
    View → RemoteTables → list RemoteRepository;
  is_expanded : Request → string → bool;
  key_le : option string * string → option string * string → bool;
  key_le_total : ∀ k1 k2, key_le k1 k2 = true ∨ key_le k2 k1 = true;
}.

Module RemoteRepositoryViewSet.

(** [Exists(RemoteRepositoryRelation.objects.filter(
    remote_repository=OuterRef("pk"), user=user, admin=True))] *)
Definition Exists_admin_relation (tables : RemoteTables) (u : User) (pk : Z)
    : bool :=
  existsb
    (λ rel, bool_decide (remote_repository rel = pk)
            && bool_decide (relation_user rel = user_pk u)
            && bool_decide (admin rel = true))
    (remote_relations tables).

Definition annotate (tables : RemoteTables) (u : User)
    (queryset : list RemoteRepository) : list AnnotatedRepository :=
  (λ r, {| repository := r;
           _admin := Exists_admin_relation tables u
                       (remote_repository_pk r) |}) <$> queryset.

(** [select_related] and [prefetch_related] fetch relations ahead and
    leave the rows as they are. *)
Definition select_related {A} (queryset : list A) (lookups : list string)
    : list A := queryset.
Definition prefetch_related {A} (queryset : list A) (lookups : list string)
    : list A := queryset.

(** The keys of [order_by("organization__name", "full_name")]. *)
Definition order_key (a : AnnotatedRepository) : option string * string :=
  (organization_name (repository a), full_name (repository a)).

Section Handlers.
Context `{R : RemoteCollaborators}.

Definition ordered (a b : AnnotatedRepository) : Prop :=
  key_le (order_key a) (order_key b) = true.

#[global] Instance ordered_dec a b : Decision (ordered a b).
Proof. unfold ordered. apply _. Defined.

(** [queryset.order_by(...).distinct()]: the query selects the distinct
    rows and orders them. *)
Definition order_by_distinct (queryset : list AnnotatedRepository)
    : list AnnotatedRepository :=
  merge_sort ordered (remove_dups queryset).

Definition get_queryset (self : View) (tables : RemoteTables)
    : list AnnotatedRepository :=
  let queryset :=
    annotate tables (user (request self))
      (RemoteQuerySetMixin_get_queryset self tables) in
  let queryset :=
    if is_expanded (request self) "remote_organization"
    then select_related queryset ["organization"] else queryset in
  let queryset :=
    if is_expanded (request self) "projects"
    then prefetch_related queryset ["projects__users"] else queryset in
  order_by_distinct queryset.

End Handlers.

End RemoteRepositoryViewSet.

(** ** More of the small installation: subprojects and remote
    repositories *)

Module Fixtures.

Definition with_relationships (rs : list ProjectRelationship) (db : Database)
    : Database :=
  {| projects := projects db; relationships := rs;
     versions := versions db; builds := builds db;
     redirects := redirects db;
     environmentvariables := environmentvariables db;
     notifications := notifications db; auth_users := auth_users db;
     organizations := organizations db; journal := journal db |}.

Definition context_of (self : View) : gmap string ctxval :=
  <["view" := CtxView self]>
    (<["format" := CtxFormat None]> {[ "request" := CtxRequest (request self) ]}).

(** The child must be a stored project and the alias must be free
    under the parent of the context. *)
Definition validate_subproject (context : gmap string ctxval) (d : dict)
    (db : Database) : outcome (gmap string pyobj) :=
  match d !! "child", d !! "alias", context !! "parent" with
  | Some (JStr c), Some (JStr a), Some (CtxProject super) =>
      match List.filter (λ p, bool_decide (project_slug p = c))
              (projects db) with
      | p :: _ =>
          if existsb
               (λ r, bool_decide (parent r = project_slug super)
                     && bool_decide (alias r = a))
               (relationships db)
          then Raise (ValidationError ["alias"])
          else Return (<["alias" := PJson (JStr a)]> {[ "child" := PProject p ]})
      | [] => Raise (ValidationError ["child"])
      end
  | _, _, _ => Raise (ValidationError ["child"; "alias"])
  end.

Definition create_relationship (kw : gmap string pyobj)
    : M ProjectRelationship :=
  λ db,
    match kw !! "parent", kw !! "child", kw !! "alias" with
    | Some (PProject super), Some (PProject sub), Some (PJson (JStr a)) =>
        let r := {| parent := project_slug super;
                    child := project_slug sub; alias := a |} in
        (with_relationships (relationships db ++ [r]) db, Return r)
    | _, _, _ => (db, Raise (IntegrityError "projects_projectrelationship"))
    end.

Definition relationship_data (r : option ProjectRelationship) : dict :=
  match r with
  | Some r => <["alias" := JStr (alias r)]> {[ "child" := JStr (child r) ]}
  | None => ∅
  end.

Definition alias_data (r : option ProjectRelationship) : dict :=
  match r with
  | Some r => {[ "alias" := JStr (alias r) ]}
  | None => ∅
  end.

Definition subprojects : SubprojectCollaborators :=
  {| super_get_serializer_context := context_of;
     SubprojectCreateSerializer_run_validation := validate_subproject;
     SubprojectCreateSerializer_create := create_relationship;
     SubprojectCreateSerializer_data := λ s _, Return (alias_data (instance s));
     SubprojectSerializer_data := λ r _, Return (relationship_data r) |}.

(** [POST /projects/pip/subprojects/] with [child: vault, alias: v],
    and the same under a project that does not exist *)
Definition subprojects_create : View :=
  Demo.view "projects-subprojects" "create" false Demo.alice
    (<["alias" := JStr "v"]> {[ "child" := JStr "vault" ]})
    {[ "project_slug" := "pip" ]}.
Definition subprojects_create_nowhere : View :=
  Demo.view "projects-subprojects" "create" false Demo.alice
    (<["alias" := JStr "v"]> {[ "child" := JStr "vault" ]})
    {[ "project_slug" := "nowhere" ]}.
Definition pip_vault : ProjectRelationship :=
  {| parent := "pip"; child := "vault"; alias := "v" |}.
Definition db_related : Database :=
  with_relationships
    [{| parent := "pip"; child := "docs"; alias := "d" |}; pip_vault] Demo.db0.

(** The remote repositories of alice; the second relation is stored
    twice. *)
Definition acme_api : RemoteRepository :=
  {| remote_repository_pk := 1; full_name := "acme/api";
     organization_name := Some "acme" |}.
Definition acme_web : RemoteRepository :=
  {| remote_repository_pk := 2; full_name := "acme/web";
     organization_name := Some "acme" |}.
Definition dotfiles : RemoteRepository :=
  {| remote_repository_pk := 3; full_name := "alice/dotfiles";
     organization_name := None |}.

Definition tables : RemoteTables :=
  {| remote_repositories := [dotfiles; acme_web; acme_api];
     remote_relations :=
       [{| remote_repository := 3; relation_user := 1; admin := true |};
        {| remote_repository := 2; relation_user := 1; admin := false |};
        {| remote_repository := 2; relation_user := 1; admin := false |};
        {| remote_repository := 1; relation_user := 1; admin := true |};
        {| remote_repository := 2; relation_user := 2; admin := true |}] |}.

(** The repositories the caller has a relation with, one row per
    relation. *)
Definition related_repositories (self : View) (t : RemoteTables)
    : list RemoteRepository :=
  rel ← remote_relations t;
  if bool_decide (relation_user rel = user_pk (user (request self))) then
    List.filter (λ r, bool_decide (remote_repository_pk r = remote_repository rel))
      (remote_repositories t)
  else [].

Definition name_le (o1 o2 : option string) : bool :=
  match o1, o2 with
  | _, None => true
  | None, Some _ => false
  | Some a, Some b => String.leb a b
  end.

Definition lexicographic (k1 k2 : option string * string) : bool :=
  if decide (k1.1 = k2.1) then String.leb k1.2 k2.2 else name_le k1.1 k2.1.

Definition remotes : RemoteCollaborators.
Proof.
  refine {| RemoteQuerySetMixin_get_queryset := related_repositories;
            is_expanded := λ _ field, bool_decide (field = "projects");
            key_le := lexicographic;
            key_le_total := _ |}.
  intros [o1 n1] [o2 n2]. unfold lexicographic. simpl.
  destruct (decide (o1 = o2)) as [->|Hne].
  - rewrite decide_True by done. apply String.leb_total.
  - rewrite (decide_False (P := o2 = o1)) by congruence.
    destruct o1 as [a|], o2 as [b|]; simpl; auto using String.leb_total.
Defined.

(** [GET /remoterepositories/] by alice *)
Definition remoterepositories_list : View :=
  Demo.view "remoterepositories" "list" false Demo.alice ∅ ∅.

(** [GET /projects/vault/superproject/] by alice, who may not see
    [vault], and [GET /projects/docs/superproject/] *)
Definition projects_superproject_vault : View :=
  Demo.view "projects" "superproject" true Demo.alice ∅
    {[ "project_slug" := "vault" ]}.
Definition projects_superproject_docs : View :=
  Demo.view "projects" "superproject" true Demo.alice ∅
    {[ "project_slug" := "docs" ]}.

(** An installation whose rendering of a project fails. *)
Definition unrenderable : Collaborators :=
  {| BuildSerializer_data := @BuildSerializer_data Demo.installation;
     ProjectSerializer_data := λ _ _, Raise (DatabaseError "connection lost");
     VersionSerializer_data := @VersionSerializer_data Demo.installation;
     ProjectCreateSerializer_run_validation :=
       @ProjectCreateSerializer_run_validation Demo.installation;
     ProjectCreateSerializer_save :=
       @ProjectCreateSerializer_save Demo.installation;
     ProjectCreateSerializer_data :=
       @ProjectCreateSerializer_data Demo.installation;
     get_success_headers := @get_success_headers Demo.installation;
     _get_parent_project := @_get_parent_project Demo.installation;
     _get_parent_version := @_get_parent_version Demo.installation;
     finish_import_project := @finish_import_project Demo.installation;
     Project_superprojects := @Project_superprojects Demo.installation;
     ProjectRelationship_parent :=
       @ProjectRelationship_parent Demo.installation;
     VersionsViewSet_get_object :=
       @VersionsViewSet_get_object Demo.installation;
     VersionsViewSet_super_update :=
       @VersionsViewSet_super_update Demo.installation;
     Version_post_save := @Version_post_save Demo.installation;
     trigger_build := @trigger_build Demo.installation |}.

(** [POST /projects/] without a name, [POST] of a build under a
    project that does not exist, and the update of a version that does
    not exist *)
Definition projects_create_nameless : View :=
  Demo.view "projects" "create" false Demo.alice ∅ ∅.
Definition builds_create_nowhere : View :=
  Demo.view "projects-versions-builds" "create" false Demo.alice ∅
    (<["version_slug" := "latest"]> {[ "project_slug" := "nowhere" ]}).
Definition versions_update_missing : View :=
  Demo.view "projects-versions" "update" true Demo.alice
    {[ "active" := JBool false ]}
    (<["version_slug" := "9.9"]> {[ "project_slug" := "pip" ]}).
Definition redirects_create_nowhere : View :=
  Demo.view "projects-redirects" "create" false Demo.alice ∅
    {[ "project_slug" := "nowhere" ]}.

(** [GET /users/bob/notifications/] by bob *)
Definition users_notifications_bob : View :=
  Demo.view "users-notifications" "list" false Demo.bob ∅
    {[ "username" := "bob" ]}.

End Fixtures.

(** * Properties *)

(** ** Running a handler step by step *)

Lemma bind_Return {A B} (m : M A) (f : A → M B) db db' a :
  m db = (db', Return a) → (m ≫= f) db = f a db'.
Proof. intros Hm. unfold mbind, M_bind. by rewrite Hm. Qed.

Lemma bind_Raise {A B} (m : M A) (f : A → M B) db db' e :
  m db = (db', Raise e) → (m ≫= f) db = (db', Raise e).
Proof. intros Hm. unfold mbind, M_bind. by rewrite Hm. Qed.

Lemma bind_query_Return {A B} (q : Database → outcome A) (f : A → M B) db a :
  q db = Return a → (query q ≫= f) db = f a db.
Proof. intros Hq. apply bind_Return. unfold query. by rewrite Hq. Qed.

Lemma bind_query_Raise {A B} (q : Database → outcome A) (f : A → M B) db e :
  q db = Raise e → (query q ≫= f) db = (db, Raise e).
Proof. intros Hq. apply bind_Raise. unfold query. by rewrite Hq. Qed.

Lemma bind_mret {A B} (a : A) (f : A → M B) db : (mret a ≫= f) db = f a db.
Proof. reflexivity. Qed.

Lemma bind_raise {A B} (e : exn) (f : A → M B) db :
  (raise e ≫= f) db = (db, Raise e).
Proof. reflexivity. Qed.

Lemma bind_assoc {A B D} (m : M A) (f : A → M B) (g : B → M D) db :
  ((m ≫= f) ≫= g) db = (m ≫= (λ a, f a ≫= g)) db.
Proof. unfold mbind, M_bind. by destruct (m db) as [db' [a|e]]. Qed.

(** One step of a handler whose result is known from a hypothesis. *)
Ltac step :=
  first
    [ erewrite bind_query_Return by eassumption
    | erewrite bind_query_Raise by eassumption
    | erewrite bind_Return by eassumption
    | erewrite bind_Raise by eassumption
    | rewrite bind_mret
    | rewrite bind_raise ].

(** ** The build trigger *)

Section BuildTrigger.
Context `{C : Collaborators}.
Import BuildsCreateViewSet.

(** The handler from the point where the gateway has answered. *)
Lemma create_after_trigger self db project pversion db1 task build :
  _get_parent_project self db = Return project →
  _get_parent_version self db = Return pversion →
  trigger_build project pversion db = (db1, Return (task, build)) →
  create self db =
    (build_data ← query (BuildSerializer_data build);
     project_data ← query (ProjectSerializer_data (Some project));
     build_version ← getattr_version build;
     version_data ← query (VersionSerializer_data (Some build_version));
     let data : dict :=
       <["version" := JDict version_data]>
         (<["project" := JDict project_data]>
            (<["build" := JDict build_data]> ∅)) in
     if truthy build then
       mret (Response_of (Some (<["triggered" := JBool true]> data))
               HTTP_202_ACCEPTED)
     else
       mret (Response_of (Some (<["triggered" := JBool false]> data))
               HTTP_400_BAD_REQUEST)) db1.
Proof.
  intros Hp Hv Ht. unfold create. do 3 step. reflexivity.
Qed.

(** An accepted trigger: 202, the three serialized objects and
    [triggered: True]; the database is the one the gateway left. *)
Lemma create_accepted self db project pversion db1 task b bd pd vd :
  _get_parent_project self db = Return project →
  _get_parent_version self db = Return pversion →
  trigger_build project pversion db = (db1, Return (task, Some b)) →
  BuildSerializer_data (Some b) db1 = Return bd →
  ProjectSerializer_data (Some project) db1 = Return pd →
  VersionSerializer_data (Some (version b)) db1 = Return vd →
  create self db =
    (db1,
     Return
       (Response_of
          (Some (<["triggered" := JBool true]>
                   (<["version" := JDict vd]>
                      (<["project" := JDict pd]>
                         (<["build" := JDict bd]> ∅)))))
          HTTP_202_ACCEPTED)).
Proof.
  intros Hp Hv Ht Hb Hpd Hvd.
  rewrite (create_after_trigger _ _ _ _ _ _ _ Hp Hv Ht).
  do 2 step. simpl getattr_version. step. step. reflexivity.
Qed.

(** C1, the declined half, on the code: when the gateway answers
    without a build, the handler never gives a response.  It reads
    [build.version] while it builds the body, before it reaches the
    branch that would answer 400, so when the two serializers before
    that read return, the request ends in an [AttributeError] (a server
    error) and not in a 400 response with [triggered: False].  The
    database is the one the gateway left: the handler adds no build of
    its own. *)
Theorem create_declined_raises self db project pversion db1 task :
  _get_parent_project self db = Return project →
  _get_parent_version self db = Return pversion →
  trigger_build project pversion db = (db1, Return (task, None)) →
  (∃ e, create self db = (db1, Raise e))
  ∧ (∀ bd pd,
       BuildSerializer_data None db1 = Return bd →
       ProjectSerializer_data (Some project) db1 = Return pd →
       create self db =
         (db1,
          Raise (AttributeError "'NoneType' object has no attribute 'version'"))
       ∧ http_status (create self db).2 = HTTP_500_INTERNAL_SERVER_ERROR).
Proof.
  intros Hp Hv Ht.
  rewrite (create_after_trigger _ _ _ _ _ _ _ Hp Hv Ht). split.
  - unfold mbind, M_bind, query.
    destruct (BuildSerializer_data None db1) as [bd|e]; [|by eexists].
    destruct (ProjectSerializer_data (Some project) db1) as [pd|e];
      [|by eexists].
    by eexists.
  - intros bd pd Hb Hpd. do 2 step. by split.
Qed.

End BuildTrigger.

(** The task component of the gateway's answer never reaches the
    result of the handler. *)
Lemma create_ignores_task (C : Collaborators) (g : option Z → option Z) self db :
  @BuildsCreateViewSet.create (relabel_task g C) self db
  = @BuildsCreateViewSet.create C self db.
Proof.
  unfold BuildsCreateViewSet.create, mbind, M_bind, query. simpl.
  destruct (_get_parent_project self db) as [project|]; [|done].
  destruct (_get_parent_version self db) as [pversion|]; [|done].
  by destruct (trigger_build project pversion db) as [db1 [[task build]|e]].
Qed.

(** C9, on the code: the first component of the gateway's answer is
    dropped (replacing it by anything leaves the outcome of the handler
    as it is), but the choice between 202 and 400 is not made on the
    build.  When the build is [None], whatever the first component is,
    the handler raises while it builds the body, before the branch on
    the build, and gives no response at all: the branch that answers
    400 with [triggered: False] is never taken.  A response is only
    given for a true build, and it is the 202 one. *)
Theorem create_never_reaches_400 (C : Collaborators) :
  (∀ (g : option Z → option Z) self db,
     @BuildsCreateViewSet.create (relabel_task g C) self db
     = @BuildsCreateViewSet.create C self db)
  ∧ (∀ self db project pversion db1 task,
       _get_parent_project self db = Return project →
       _get_parent_version self db = Return pversion →
       trigger_build project pversion db = (db1, Return (task, None)) →
       (∃ e, BuildsCreateViewSet.create self db = (db1, Raise e))
       ∧ (∀ db2 r, BuildsCreateViewSet.create self db ≠ (db2, Return r)))
  ∧ (∀ self db project pversion db1 task build db2 r,
       _get_parent_project self db = Return project →
       _get_parent_version self db = Return pversion →
       trigger_build project pversion db = (db1, Return (task, build)) →
       BuildsCreateViewSet.create self db = (db2, Return r) →
       BuildsCreateViewSet.truthy build = true
       ∧ status r = HTTP_202_ACCEPTED
       ∧ (response_data r ≫= (.!! "triggered")) = Some (JBool true)).
Proof.
  split; [|split].
  - apply create_ignores_task.
  - intros self db project pversion db1 task Hp Hv Ht.
    rewrite (create_after_trigger _ _ _ _ _ _ _ Hp Hv Ht).
    unfold mbind, M_bind, query.
    destruct (BuildSerializer_data None db1) as [bd|e];
      [|split; [by eexists | done]].
    destruct (ProjectSerializer_data (Some project) db1) as [pd|e];
      [|split; [by eexists | done]].
    split; [by eexists | done].
  - intros self db project pversion db1 task build db2 r Hp Hv Ht.
    rewrite (create_after_trigger _ _ _ _ _ _ _ Hp Hv Ht).
    unfold mbind, M_bind, query.
    destruct (BuildSerializer_data build db1) as [bd|]; [|done].
    destruct (ProjectSerializer_data (Some project) db1) as [pd|]; [|done].
    destruct build as [b|]; simpl; [|done].
    destruct (VersionSerializer_data (Some (version b)) db1) as [vd|]; [|done].
    intros [= <- <-]. simpl. split; [done|]. split; [done|].
    by rewrite lookup_insert_eq.
Qed.

(** ** The version update *)

Section VersionUpdate.
Context `{C : Collaborators}.
Import VersionsViewSet.

(** A version that cannot be found stops the handler before anything
    is written and before the hook is called. *)
Lemma update_without_version self db e :
  VersionsViewSet_get_object self db = Raise e →
  update self db = (db, Raise e).
Proof. intros Hget. unfold update. by step. Qed.

(** C2: the handler reads [active] from the version as it is before
    the update, runs the update, reloads the version from the updated
    database and calls [post_save] on the reloaded version with the
    value read first; so when the update turns [active] from true to
    false, the hook is called with [was_active=True] on a version whose
    [active] is false. *)
Theorem update_passes_previous_active self db v0 db1 result v1 :
  VersionsViewSet_get_object self db = Return v0 →
  VersionsViewSet_super_update self db = (db1, Return result) →
  VersionsViewSet_get_object self db1 = Return v1 →
  update self db
  = (Version_post_save v1 (active v0) ;; mret result) db1
  ∧ (active v0 = true → active v1 = false →
     ∃ v, active v = false
          ∧ update self db = (Version_post_save v true ;; mret result) db1).
Proof.
  intros Hget0 Hupdate Hget1.
  assert (update self db
          = (Version_post_save v1 (active v0) ;; mret result) db1) as Hrun.
  { unfold update. do 3 step. reflexivity. }
  split; [exact Hrun|].
  intros Hwas Hnow. exists v1. split; [exact Hnow|].
  by rewrite Hrun, Hwas.
Qed.

End VersionUpdate.

(** ** The project import *)

Section ProjectImport.
Context `{C : Collaborators}.
Import ProjectsViewSetBase.

(** The handler up to the hook: validation, then persistence. *)
Lemma perform_create_after_save self db vd db1 project :
  ProjectCreateSerializer_save vd db = (db1, Return project) →
  perform_create self
    {| initial_data := data (request self); validated_data := Some vd;
       instance := None |} db
  = (finish_import_project (request self) project;;
     mret {| initial_data := data (request self);
             validated_data := Some vd;
             instance := Some project |}) db1.
Proof.
  intros Hsave. unfold perform_create, super_perform_create. simpl.
  unfold mbind, M_bind, mret, M_ret. by rewrite Hsave.
Qed.

(** A hook that returns: the create answers 201 with the full
    rendering of the project. *)
Lemma create_succeeds self db vd db1 project db2 d d' :
  ProjectCreateSerializer_run_validation (data (request self)) db
  = Return vd →
  ProjectCreateSerializer_save vd db = (db1, Return project) →
  finish_import_project (request self) project db1 = (db2, Return ()) →
  ProjectCreateSerializer_data
    {| initial_data := data (request self); validated_data := Some vd;
       instance := Some project |} db2 = Return d →
  ProjectSerializer_data (Some project) db2 = Return d' →
  create self db
  = (db2, Return {| response_data := Some d';
                    status := HTTP_201_CREATED;
                    headers := get_success_headers d |}).
Proof.
  intros Hvalid Hsave Hhook Hd Hd'. unfold create, is_valid, get_serializer.
  cbn [initial_data instance validated_data].
  rewrite bind_assoc. step. step.
  erewrite bind_Return; cycle 1.
  { rewrite (perform_create_after_save _ _ _ _ _ Hsave). by step. }
  step. cbn [instance]. step. reflexivity.
Qed.

(** C3, as the code has it: when validation and persistence succeed
    and the finish-import hook raises, the handler undoes nothing (the
    database it leaves is the one the hook left, so a project the hook
    did not touch is still stored) and the exception of the hook
    leaves the create handler: the handler gives no 201 response. *)
Theorem create_propagates_hook_failure self db vd db1 project db2 e :
  ProjectCreateSerializer_run_validation (data (request self)) db
  = Return vd →
  ProjectCreateSerializer_save vd db = (db1, Return project) →
  finish_import_project (request self) project db1 = (db2, Raise e) →
  create self db = (db2, Raise e)
  ∧ (project ∈ projects db2 → project ∈ projects (create self db).1).
Proof.
  intros Hvalid Hsave Hhook.
  assert (create self db = (db2, Raise e)) as Hrun.
  { unfold create, is_valid, get_serializer.
    cbn [initial_data instance validated_data].
    rewrite bind_assoc. step. step.
    erewrite bind_Raise; [done|].
    rewrite (perform_create_after_save _ _ _ _ _ Hsave). by step. }
  split; [exact Hrun | by rewrite Hrun].
Qed.

End ProjectImport.

(** ** Rows created under a project *)

Section ParentInjection.
Context `{C : Collaborators}.

(** Saving a serializer whose validated data hold a project under
    ["project"] appends one row of that project. *)
Lemma save_appends (t : Table) (s : ModelSerializer Row) vd p db :
  validated_data s = Some vd →
  vd !! "project" = Some (PProject p) →
  ∃ obj,
    ModelSerializer_.save t s db
    = (set_rows t (rows t db ++ [obj]) db,
       Return {| initial_data := initial_data s;
                 validated_data := Some vd;
                 instance := Some obj |})
    ∧ row_project obj = p.
Proof.
  intros Hvd Hp. unfold ModelSerializer_.save. rewrite Hvd.
  unfold mbind, M_bind, ModelSerializer_.objects_create. rewrite Hp.
  eexists. split; reflexivity.
Qed.

Lemma rows_set_rows t rs db : rows t (set_rows t rs db) = rs.
Proof. by destruct t. Qed.

(** The common body of the two [perform_create]. *)
Lemma inject_then_save (t : Table) self (s : ModelSerializer Row) vd db p :
  validated_data s = Some vd →
  _get_parent_project self db = Return p →
  ∃ obj db' s',
    (validated ← ModelSerializer_.get_validated_data s;
     project ← query (_get_parent_project self);
     let serializer :=
       ModelSerializer_.update validated "project" (PProject project) s in
     ModelSerializer_.save t serializer) db = (db', Return s')
    ∧ rows t db' = rows t db ++ [obj]
    ∧ instance s' = Some obj
    ∧ row_project obj = p
    ∧ (validated_data s' ≫= (.!! "project")) = Some (PProject p).
Proof.
  intros Hvd Hp.
  unfold ModelSerializer_.get_validated_data. rewrite Hvd. do 2 step.
  unfold ModelSerializer_.update.
  edestruct (save_appends t
               {| initial_data := initial_data s;
                  validated_data := Some (<["project" := PProject p]> vd);
                  instance := instance s |}
               (<["project" := PProject p]> vd) p db)
    as (obj & Hsave & Hproject); [done | apply lookup_insert_eq |].
  exists obj. eexists. eexists. split; [exact Hsave|].
  split; [apply rows_set_rows|]. split; [done|]. split; [done|].
  simpl. apply lookup_insert_eq.
Qed.

(** C4: for a redirect as for an environment variable, whatever the
    validated data hold (a ["project"] entry of another project
    included), the create sets the ["project"] entry to the project of
    the URL and then saves: one row is added, and its project is the
    project of the URL. *)
Theorem perform_create_injects_parent self (s : ModelSerializer Row) vd db p :
  validated_data s = Some vd →
  _get_parent_project self db = Return p →
  (∃ obj db' s',
     RedirectsViewSet.perform_create self s db = (db', Return s')
     ∧ redirects db' = redirects db ++ [obj]
     ∧ instance s' = Some obj
     ∧ row_project obj = p
     ∧ (validated_data s' ≫= (.!! "project")) = Some (PProject p))
  ∧ (∃ obj db' s',
       EnvironmentVariablesViewSet.perform_create self s db = (db', Return s')
       ∧ environmentvariables db' = environmentvariables db ++ [obj]
       ∧ instance s' = Some obj
       ∧ row_project obj = p
       ∧ (validated_data s' ≫= (.!! "project")) = Some (PProject p)).
Proof.
  intros Hvd Hp. split.
  - exact (inject_then_save RedirectTable self s vd db p Hvd Hp).
  - exact (inject_then_save EnvironmentVariableTable self s vd db p Hvd Hp).
Qed.

End ParentInjection.

(** ** Query scoping of the projects *)

Lemma filter_filter_comm {A} (f g : A → bool) (l : list A) :
  List.filter f (List.filter g l) = List.filter g (List.filter f l).
Proof.
  induction l as [|x l IH]; [done|]. simpl.
  destruct (g x) eqn:Hg, (f x) eqn:Hf; simpl; rewrite ?Hg, ?Hf, IH; done.
Qed.

Lemma elem_of_List_filter {A} (f : A → bool) (l : list A) (x : A) :
  x ∈ List.filter f l ↔ x ∈ l ∧ f x = true.
Proof. rewrite !list_elem_of_In. apply filter_In. Qed.

Lemma get_object_or_404_single {A} (queryset : list A) (lookup : A → bool) x :
  List.filter lookup queryset = [x] →
  GenericAPIView.get_object_or_404 queryset lookup = Return x.
Proof. intros Hx. unfold GenericAPIView.get_object_or_404. by rewrite Hx. Qed.

Lemma get_object_or_404_empty {A} (lookup : A → bool) :
  GenericAPIView.get_object_or_404 [] lookup = Raise Http404.
Proof. reflexivity. Qed.

Section Scoping.
Context `{C : Collaborators}.
Import ProjectsViewSetBase.

Lemma elem_of_admin_projects u db p :
  p ∈ ProjectQuerySet.admin_projects u db
  ↔ p ∈ projects db ∧ user_pk u ∈ users p.
Proof.
  unfold ProjectQuerySet.admin_projects, ProjectQuerySet.is_admin.
  rewrite elem_of_List_filter. by rewrite bool_decide_eq_true.
Qed.

Lemma get_queryset_list self db :
  basename self = "projects" → action self = "list" →
  get_queryset self db
  = ProjectQuerySet.admin_projects (user (request self)) db.
Proof. intros Hb Ha. unfold get_queryset. by rewrite Hb, Ha. Qed.

Lemma get_queryset_detail self db :
  action self ≠ "list" →
  get_queryset self db = ProjectQuerySet.get_queryset self db.
Proof.
  intros Ha. unfold get_queryset.
  rewrite (bool_decide_eq_false_2 _ Ha). by rewrite andb_false_r.
Qed.

(** A public project that is stored once under its slug is found by
    a retrieve of an authenticated caller. *)
Lemma get_object_public self db p :
  action self = "retrieve" →
  is_authenticated (user (request self)) = true →
  privacy_level p = Public →
  kwargs self !! "project_slug" = Some (project_slug p) →
  List.filter (λ q, bool_decide (project_slug q = project_slug p))
    (projects db) = [p] →
  get_object self db = Return p.
Proof.
  intros Ha Hauth Hpublic Hkw Hslug.
  unfold get_object, GenericAPIView.get_object, lookup_url_kwarg.
  rewrite Hkw, get_queryset_detail by (rewrite Ha; done).
  unfold ProjectQuerySet.get_queryset.
  rewrite (get_object_or_404_single _ _ p); cycle 1.
  { rewrite filter_filter_comm, Hslug. simpl.
    by rewrite (bool_decide_eq_true_2 _ Hpublic). }
  unfold ProjectQuerySet.CommonPermissions.
  rewrite Hauth, Ha, (bool_decide_eq_true_2 _ Hpublic).
  by rewrite orb_true_r.
Qed.

(** C5: at the top-level path ([basename] "projects") a list yields
    exactly the stored projects the caller administers, so a public
    project of somebody else is left out; a retrieve of that project
    by its slug, by the same authenticated caller, answers 200 with
    its rendering. *)
Theorem list_own_projects_retrieve_public :
  (∀ self db,
     basename self = "projects" → action self = "list" →
     ∀ q, (q ∈ get_queryset self db
           ↔ q ∈ projects db ∧ user_pk (user (request self)) ∈ users q))
  ∧ (∀ self_list self_retrieve db p d,
       basename self_list = "projects" → action self_list = "list" →
       action self_retrieve = "retrieve" →
       user (request self_retrieve) = user (request self_list) →
       is_authenticated (user (request self_list)) = true →
       privacy_level p = Public →
       user_pk (user (request self_list)) ∉ users p →
       kwargs self_retrieve !! "project_slug" = Some (project_slug p) →
       List.filter (λ q, bool_decide (project_slug q = project_slug p))
         (projects db) = [p] →
       ProjectSerializer_data (Some p) db = Return d →
       (p ∉ get_queryset self_list db)
       ∧ retrieve self_retrieve db
         = (db, Return (Response_of (Some d) HTTP_200_OK))).
Proof.
  split.
  - intros self db Hb Ha q.
    rewrite get_queryset_list by done. apply elem_of_admin_projects.
  - intros self_list self_retrieve db p d Hb Hl Hr Huser Hauth Hpublic
      Hadmin Hkw Hslug Hd.
    split.
    + rewrite get_queryset_list by done.
      rewrite elem_of_admin_projects. tauto.
    + unfold retrieve.
      rewrite <- Huser in Hauth.
      pose proof (get_object_public _ _ _ Hr Hauth Hpublic Hkw Hslug) as Hget.
      do 2 step. reflexivity.
Qed.

End Scoping.

(** ** Serializer resolution *)

Lemma routed_action_cases (a : string) (l : list string) (P : string → Prop) :
  Forall P l → a ∈ l → P a.
Proof. intros Hall Ha. by eapply Forall_forall in Hall. Qed.

(** Every action a viewset answers resolves to a schema. *)
Lemma routed_actions_resolve v :
  Forall (λ a, ∀ self, action self = a → is_Some (get_serializer_class v self))
    (routed_actions v).
Proof.
  destruct v; vm_compute routed_actions;
    repeat apply Forall_cons_2; try apply Forall_nil_2;
    intros [b a d r k] Ha; simpl in Ha; subst a; vm_compute; eauto.
Qed.

(** C6, as the code has it: on every viewset the resolution yields a
    schema for every action the viewset answers.  An action outside the
    ones a method names is not refused: [ProjectsViewSetBase] yields no
    schema for it ([None]), and the other methods fall back to a
    default schema. *)
Theorem serializer_resolution_total_with_defaults :
  (∀ v self,
     action self ∈ routed_actions v → is_Some (get_serializer_class v self))
  ∧ (∀ self,
       action self ∉ ["list"; "retrieve"; "superproject"; "create"; "update";
                      "partial_update"] →
       ProjectsViewSetBase.get_serializer_class self = None)
  ∧ (∀ self,
       action self ∉ ["list"; "retrieve"] →
       VersionsViewSet.get_serializer_class self = Some VersionUpdateSerializer)
  ∧ (∀ self,
       action self ∉ ["create"; "destroy"] →
       SubprojectRelationshipViewSet.get_serializer_class self
       = Some SubprojectSerializer)
  ∧ (∀ self,
       action self ∉ ["create"; "update"; "partial_update"] →
       RedirectsViewSet.get_serializer_class self
       = Some RedirectDetailSerializer)
  ∧ (∀ self,
       action self ≠ "create" →
       BuildsCreateViewSet.get_serializer_class self = Some BuildSerializer).
Proof.
  split; [|repeat split].
  - intros v self Ha.
    exact (routed_action_cases _ _ _ (routed_actions_resolve v) Ha
             self eq_refl).
  - intros self Ha. unfold ProjectsViewSetBase.get_serializer_class, str_in.
    repeat case_bool_decide; try done; exfalso; set_unfold; tauto.
  - intros self Ha. unfold VersionsViewSet.get_serializer_class, str_in.
    by case_bool_decide.
  - intros self Ha. unfold SubprojectRelationshipViewSet.get_serializer_class.
    repeat case_bool_decide; try done; exfalso; set_unfold; tauto.
  - intros self Ha. unfold RedirectsViewSet.get_serializer_class, str_in.
    by case_bool_decide.
  - intros self Ha. unfold BuildsCreateViewSet.get_serializer_class.
    by case_bool_decide.
Qed.

(** ** The superproject of a project *)

Section Superproject.
Context `{C : Collaborators}.
Import ProjectsViewSetBase.

Lemma try_except_Exception_caught {A} (body handler : M A) db db' e :
  body db = (db', Raise e) → isinstance_Exception e = true →
  try_except_Exception body handler db = handler db'.
Proof. intros Hbody He. unfold try_except_Exception. by rewrite Hbody, He. Qed.




End Superproject.

(** ** The notifications of the caller *)

(** C8: the listing of the caller's notifications holds exactly the
    stored notifications whose content type is the one of [User] and
    whose target id is the caller's; a notification attached to another
    model (a build, say) is never in it. *)
Theorem self_notifications_attached_to_caller self db n :
  (n ∈ NotificationsUserViewSet.get_queryset self db
   ↔ n ∈ notifications db
     ∧ attached_to_content_type n
       = NotificationsUserViewSet.get_for_model UserModel
     ∧ attached_to_id n = user_pk (user (request self)))
  ∧ (model_class (attached_to_content_type n) ≠ UserModel →
     n ∉ NotificationsUserViewSet.get_queryset self db).
Proof.
  assert (n ∈ NotificationsUserViewSet.get_queryset self db
          ↔ n ∈ notifications db
            ∧ attached_to_content_type n
              = NotificationsUserViewSet.get_for_model UserModel
            ∧ attached_to_id n = user_pk (user (request self))) as Hiff.
  { unfold NotificationsUserViewSet.get_queryset,
      NotificationsUserViewSet.queryset.
    rewrite elem_of_List_filter, andb_true_iff, !bool_decide_eq_true.
    done. }
  split; [exact Hiff|].
  intros Hother Hin. apply Hiff in Hin as (_ & Htype & _).
  apply Hother. by rewrite Htype.
Qed.

(** ** The parents of the nested notification routes *)

(** A viewset without any handler has no route: every request to it
    is answered with not-found. *)
Lemma resolve_without_route (v : ViewSet) (act : string) :
  routed_actions v = [] → GenericAPIView.resolve v act = Raise Http404.
Proof.
  intros Hnone. unfold GenericAPIView.resolve, str_in. rewrite Hnone.
  rewrite bool_decide_eq_false_2 by apply not_elem_of_nil.
  assert (∀ l : list string,
            existsb (λ a, bool_decide (a ∈ @nil string)) l = false) as Hno.
  { induction l as [|a l IH]; [done|]. cbn [existsb]. rewrite IH.
    by rewrite bool_decide_eq_false_2 by apply not_elem_of_nil. }
  by rewrite Hno.
Qed.

(** C10: the querysets of [UsersViewSet] and [OrganizationsViewSetBase]
    are empty whatever the database holds, so a lookup in them by any
    identifier is not-found; the two classes bring no handler, so the
    router has no route for a list or a retrieve (or any action) at
    them, and the request is answered with 404. *)
Theorem users_and_organizations_not_found (db : Database) (act : string) :
  UsersViewSet.queryset db = []
  ∧ OrganizationsViewSetBase.queryset db = []
  ∧ (∀ lookup,
       GenericAPIView.get_object_or_404 (UsersViewSet.queryset db) lookup
       = Raise Http404)
  ∧ (∀ lookup,
       GenericAPIView.get_object_or_404 (OrganizationsViewSetBase.queryset db)
         lookup
       = Raise Http404)
  ∧ routed_actions UsersViewSet = []
  ∧ routed_actions OrganizationsViewSetBase = []
  ∧ GenericAPIView.resolve UsersViewSet act = Raise Http404
  ∧ GenericAPIView.resolve OrganizationsViewSetBase act = Raise Http404
  ∧ status_of_exn Http404 = HTTP_404_NOT_FOUND.
Proof.
  assert (routed_actions UsersViewSet = []) as Husers by reflexivity.
  assert (routed_actions OrganizationsViewSetBase = []) as Horgs by reflexivity.
  split; [reflexivity|]. split; [reflexivity|].
  split; [intros lookup; apply get_object_or_404_empty|].
  split; [intros lookup; apply get_object_or_404_empty|].
  split; [exact Husers|]. split; [exact Horgs|].
  split; [|split].
  - by apply resolve_without_route.
  - by apply resolve_without_route.
  - reflexivity.
Qed.

(** * The properties on the small installation *)

Lemma create_declined_raises_witness :
  (∃ e,
     @BuildsCreateViewSet.create Demo.installation Demo.builds_create_stable
       Demo.db0 = (Demo.db0, Raise e))
  ∧ @BuildsCreateViewSet.create Demo.installation Demo.builds_create_stable
      Demo.db0
    = (Demo.db0,
       Raise (AttributeError "'NoneType' object has no attribute 'version'"))
  ∧ http_status
      (@BuildsCreateViewSet.create Demo.installation Demo.builds_create_stable
         Demo.db0).2
    = HTTP_500_INTERNAL_SERVER_ERROR.
Proof.
  destruct (@create_declined_raises Demo.installation
              Demo.builds_create_stable Demo.db0 Demo.pip Demo.stable Demo.db0
              None)
    as [Hraises Hattribute]; [reflexivity..|].
  split; [exact Hraises|].
  apply (Hattribute (Demo.build_data None) (Demo.project_data (Some Demo.pip)));
    reflexivity.
Defined.

Lemma create_never_reaches_400_witness :
  (∃ e,
     @BuildsCreateViewSet.create Demo.installation Demo.builds_create_stable
       Demo.db0 = (Demo.db0, Raise e))
  ∧ (∀ db2 r,
       @BuildsCreateViewSet.create Demo.installation Demo.builds_create_stable
         Demo.db0 ≠ (db2, Return r)).
Proof.
  destruct (create_never_reaches_400 Demo.installation) as (_ & Hnone & _).
  apply (Hnone Demo.builds_create_stable Demo.db0 Demo.pip Demo.stable
           Demo.db0 None);
    reflexivity.
Defined.

Lemma update_passes_previous_active_witness :
  @VersionsViewSet.update Demo.installation Demo.versions_update_latest
    Demo.db0
  = (@Version_post_save Demo.installation Demo.latest_inactive
       (active Demo.latest) ;;
     mret (Response_of None HTTP_204_NO_CONTENT)) Demo.db_updated
  ∧ ∃ v, active v = false
         ∧ @VersionsViewSet.update Demo.installation
             Demo.versions_update_latest Demo.db0
           = (@Version_post_save Demo.installation v true ;;
              mret (Response_of None HTTP_204_NO_CONTENT)) Demo.db_updated.
Proof.
  destruct (@update_passes_previous_active Demo.installation
              Demo.versions_update_latest Demo.db0 Demo.latest Demo.db_updated
              (Response_of None HTTP_204_NO_CONTENT) Demo.latest_inactive)
    as [Hrun Hflip]; [reflexivity..|].
  split; [exact Hrun | apply Hflip; reflexivity].
Defined.

(** The journal of the hook after the update of the installation: one
    call, with the previous flag, on the version as reloaded. *)
Lemma update_journal :
  journal (@VersionsViewSet.update Demo.installation
             Demo.versions_update_latest Demo.db0).1
  = [PostSave Demo.latest_inactive true].
Proof. reflexivity. Qed.

Lemma create_propagates_hook_failure_witness :
  @ProjectsViewSetBase.create Demo.failing_installation Demo.projects_create
    Demo.db0
  = (Demo.db_imported, Raise (RuntimeError "finish_import_project"))
  ∧ (Demo.new_project ∈ projects Demo.db_imported →
     Demo.new_project
     ∈ projects (@ProjectsViewSetBase.create Demo.failing_installation
                   Demo.projects_create Demo.db0).1).
Proof.
  apply (@create_propagates_hook_failure Demo.failing_installation
           Demo.projects_create Demo.db0 {[ "name" := PJson (JStr "new") ]}
           Demo.db_imported Demo.new_project Demo.db_imported
           (RuntimeError "finish_import_project"));
    reflexivity.
Defined.

(** C3 as stated fails on the code: on the installation whose hook
    raises, validation and persistence succeed and the project stays
    stored, yet the create gives no 201 response: the exception of the
    hook is its outcome, which the transport layer answers with 500. *)
Lemma create_hook_failure_is_not_201 :
  @ProjectCreateSerializer_run_validation Demo.failing_installation
    (data (request Demo.projects_create)) Demo.db0
  = Return {[ "name" := PJson (JStr "new") ]}
  ∧ @ProjectCreateSerializer_save Demo.failing_installation
      {[ "name" := PJson (JStr "new") ]} Demo.db0
    = (Demo.db_imported, Return Demo.new_project)
  ∧ @finish_import_project Demo.failing_installation
      (request Demo.projects_create) Demo.new_project Demo.db_imported
    = (Demo.db_imported, Raise (RuntimeError "finish_import_project"))
  ∧ Demo.new_project
    ∈ projects (@ProjectsViewSetBase.create Demo.failing_installation
                  Demo.projects_create Demo.db0).1
  ∧ ¬ (∃ r,
         (@ProjectsViewSetBase.create Demo.failing_installation
            Demo.projects_create Demo.db0).2 = Return r
         ∧ status r = HTTP_201_CREATED)
  ∧ http_status
      (@ProjectsViewSetBase.create Demo.failing_installation
         Demo.projects_create Demo.db0).2
    = HTTP_500_INTERNAL_SERVER_ERROR.
Proof.
  repeat split; try reflexivity.
  - apply (bool_decide_unpack _). reflexivity.
  - intros (r & Hr & _). discriminate Hr.
Qed.

Lemma perform_create_injects_parent_witness :
  (∃ obj db' s',
     @RedirectsViewSet.perform_create Demo.installation Demo.redirects_create
       Demo.validated Demo.db0 = (db', Return s')
     ∧ redirects db' = redirects Demo.db0 ++ [obj]
     ∧ instance s' = Some obj
     ∧ row_project obj = Demo.pip
     ∧ (validated_data s' ≫= (.!! "project")) = Some (PProject Demo.pip))
  ∧ (∃ obj db' s',
       @EnvironmentVariablesViewSet.perform_create Demo.installation
         Demo.redirects_create Demo.validated Demo.db0 = (db', Return s')
       ∧ environmentvariables db' = environmentvariables Demo.db0 ++ [obj]
       ∧ instance s' = Some obj
       ∧ row_project obj = Demo.pip
       ∧ (validated_data s' ≫= (.!! "project")) = Some (PProject Demo.pip)).
Proof.
  apply (@perform_create_injects_parent Demo.installation
           Demo.redirects_create Demo.validated Demo.submitted Demo.db0
           Demo.pip);
    reflexivity.
Defined.

Lemma list_own_projects_retrieve_public_witness :
  (∀ q, q ∈ ProjectsViewSetBase.get_queryset Demo.projects_list Demo.db0
        ↔ q ∈ projects Demo.db0 ∧ 1 ∈ users q)
  ∧ (Demo.docs ∉ ProjectsViewSetBase.get_queryset Demo.projects_list Demo.db0)
  ∧ @ProjectsViewSetBase.retrieve Demo.installation
      Demo.projects_retrieve_docs Demo.db0
    = (Demo.db0,
       Return (Response_of (Some (Demo.project_data (Some Demo.docs)))
                 HTTP_200_OK)).
Proof.
  destruct (@list_own_projects_retrieve_public Demo.installation)
    as [Hlist Hretrieve].
  split.
  - apply (Hlist Demo.projects_list Demo.db0); reflexivity.
  - apply (Hretrieve Demo.projects_list Demo.projects_retrieve_docs Demo.db0
             Demo.docs (Demo.project_data (Some Demo.docs)));
      try reflexivity.
    apply (bool_decide_unpack _). reflexivity.
Defined.

Lemma serializer_resolution_total_with_defaults_witness :
  is_Some (get_serializer_class VersionsViewSet Demo.versions_update_latest)
  ∧ VersionsViewSet.get_serializer_class Demo.versions_destroy
    = Some VersionUpdateSerializer.
Proof.
  destruct serializer_resolution_total_with_defaults
    as (Htotal & _ & Hversions & _).
  split.
  - apply Htotal. apply (bool_decide_unpack _). reflexivity.
  - apply Hversions. apply (bool_decide_unpack _). reflexivity.
Defined.

(** C6 as stated fails on the code: [destroy] is no action of
    [VersionsViewSet], and the resolution answers it with the update
    schema instead of refusing it. *)
Lemma unrouted_action_gets_default_schema :
  ("destroy" ∉ routed_actions VersionsViewSet)
  ∧ get_serializer_class VersionsViewSet Demo.versions_destroy
    = Some VersionUpdateSerializer
  ∧ ¬ (∀ v self,
         action self ∉ routed_actions v → get_serializer_class v self = None).
Proof.
  assert ("destroy" ∉ routed_actions VersionsViewSet) as Hunrouted.
  { apply (bool_decide_unpack _). reflexivity. }
  split; [exact Hunrouted|]. split; [reflexivity|].
  intros Hclaim.
  specialize (Hclaim VersionsViewSet Demo.versions_destroy Hunrouted).
  discriminate Hclaim.
Qed.


Lemma self_notifications_attached_to_caller_witness :
  Demo.for_build_1
  ∉ NotificationsUserViewSet.get_queryset Demo.users_notifications Demo.db0.
Proof.
  apply (proj2 (self_notifications_attached_to_caller
                  Demo.users_notifications Demo.db0 Demo.for_build_1)).
  simpl. discriminate.
Defined.

(** * More properties of the handlers *)

(** ** The build trigger: what stops it, and what it answers *)

Section BuildTriggerEdges.
Context `{C : Collaborators}.
Import BuildsCreateViewSet.

(** X1: a build is only asked for once both parents of the path are
    resolved.  When the project or the version is not found, the
    handler ends with the exception of the lookup and the database is
    untouched; when the gateway itself raises, its exception and its
    database are the outcome. *)
Theorem create_stops_before_gateway self db e :
  (_get_parent_project self db = Raise e → create self db = (db, Raise e))
  ∧ (∀ project,
       _get_parent_project self db = Return project →
       _get_parent_version self db = Raise e →
       create self db = (db, Raise e))
  ∧ (∀ project pversion db1,
       _get_parent_project self db = Return project →
       _get_parent_version self db = Return pversion →
       trigger_build project pversion db = (db1, Raise e) →
       create self db = (db1, Raise e)).
Proof.
  split; [|split].
  - intros Hp. unfold create. by step.
  - intros project Hp Hv. unfold create. by do 2 step.
  - intros project pversion db1 Hp Hv Ht. unfold create. by do 3 step.
Qed.

(** X2: the body of an accepted trigger has the four entries [build],
    [project], [version] and [triggered] and no other; the version it
    renders is the one of the build the gateway answered, and the
    status is 202. *)
Theorem create_accepted_body self db project pversion db1 task b bd pd vd :
  _get_parent_project self db = Return project →
  _get_parent_version self db = Return pversion →
  trigger_build project pversion db = (db1, Return (task, Some b)) →
  BuildSerializer_data (Some b) db1 = Return bd →
  ProjectSerializer_data (Some project) db1 = Return pd →
  VersionSerializer_data (Some (version b)) db1 = Return vd →
  ∃ body,
    create self db = (db1, Return (Response_of (Some body) HTTP_202_ACCEPTED))
    ∧ dom body = ({[ "build"; "project"; "version"; "triggered" ]} : gset string)
    ∧ body !! "build" = Some (JDict bd)
    ∧ body !! "project" = Some (JDict pd)
    ∧ body !! "version" = Some (JDict vd)
    ∧ body !! "triggered" = Some (JBool true).
Proof.
  intros Hp Hv Ht Hb Hpd Hvd. eexists. split.
  { by apply (create_accepted _ _ _ _ _ _ _ _ _ _ Hp Hv Ht Hb Hpd Hvd). }
  split.
  { rewrite !dom_insert_L, dom_empty_L. set_solver. }
  repeat split; by simplify_map_eq.
Qed.

(** X3: the only response the handler ever gives is the accepted one:
    whenever it returns a response, the status is 202 and [triggered]
    is true.  No request is answered with 400 by this handler. *)
Theorem create_only_answers_202 self db db' r :
  create self db = (db', Return r) →
  status r = HTTP_202_ACCEPTED
  ∧ (response_data r ≫= (.!! "triggered")) = Some (JBool true).
Proof.
  unfold create, mbind, M_bind, query.
  destruct (_get_parent_project self db) as [project|]; [|done].
  destruct (_get_parent_version self db) as [pversion|]; [|done].
  destruct (trigger_build project pversion db) as [db1 [[task build]|]];
    [|done].
  destruct (BuildSerializer_data build db1) as [bd|]; [|done].
  destruct (ProjectSerializer_data (Some project) db1) as [pd|]; [|done].
  destruct build as [b|]; simpl; [|done].
  destruct (VersionSerializer_data (Some (version b)) db1) as [vd|]; [|done].
  intros [= <- <-]. simpl. split; [done|]. by rewrite lookup_insert_eq.
Qed.

End BuildTriggerEdges.

(** ** The version update: failures and the result *)

Section VersionUpdateEdges.
Context `{C : Collaborators}.
Import VersionsViewSet.

(** X4: the hook only runs after a lookup, an update and a reload that
    all succeed.  A version that is not found stops the handler with
    the database untouched; an update that raises, or a reload that
    raises, ends the handler with that exception and with the database
    the update left. *)
Theorem update_stops_at_first_failure self db e :
  (VersionsViewSet_get_object self db = Raise e →
   update self db = (db, Raise e))
  ∧ (∀ v0 db1,
       VersionsViewSet_get_object self db = Return v0 →
       VersionsViewSet_super_update self db = (db1, Raise e) →
       update self db = (db1, Raise e))
  ∧ (∀ v0 db1 result,
       VersionsViewSet_get_object self db = Return v0 →
       VersionsViewSet_super_update self db = (db1, Return result) →
       VersionsViewSet_get_object self db1 = Raise e →
       update self db = (db1, Raise e)).
Proof.
  split; [|split].
  - apply update_without_version.
  - intros v0 db1 Hget Hupdate. unfold update. by do 2 step.
  - intros v0 db1 result Hget Hupdate Hreload. unfold update. by do 3 step.
Qed.

(** X5: when the hook returns, the handler answers with the very
    response of the inherited update; when the hook raises, the
    exception replaces that response, on the database the hook left
    (the update stays written). *)
Theorem update_answers_inner_response self db v0 db1 result v1 db2 :
  VersionsViewSet_get_object self db = Return v0 →
  VersionsViewSet_super_update self db = (db1, Return result) →
  VersionsViewSet_get_object self db1 = Return v1 →
  (Version_post_save v1 (active v0) db1 = (db2, Return ()) →
   update self db = (db2, Return result))
  ∧ (∀ e,
       Version_post_save v1 (active v0) db1 = (db2, Raise e) →
       update self db = (db2, Raise e)).
Proof.
  intros Hget Hupdate Hreload. split.
  - intros Hhook. unfold update. do 4 step. reflexivity.
  - intros e Hhook. unfold update. by do 4 step.
Qed.

End VersionUpdateEdges.

(** ** The project import: failures and the response *)

Section ProjectImportEdges.
Context `{C : Collaborators}.
Import ProjectsViewSetBase.

(** X6: the import hook only runs on a stored project.  A body that
    fails validation ends the create with the validation error and the
    database untouched; a save that raises ends it with that exception
    on the database the save left. *)
Theorem create_fails_before_hook self db e :
  (ProjectCreateSerializer_run_validation (data (request self)) db = Raise e →
   create self db = (db, Raise e))
  ∧ (∀ vd db1,
       ProjectCreateSerializer_run_validation (data (request self)) db
       = Return vd →
       ProjectCreateSerializer_save vd db = (db1, Raise e) →
       create self db = (db1, Raise e)).
Proof.
  split.
  - intros Hvalid. unfold create, is_valid, get_serializer.
    cbn [initial_data instance validated_data].
    rewrite bind_assoc. by step.
  - intros vd db1 Hvalid Hsave. unfold create, is_valid, get_serializer.
    cbn [initial_data instance validated_data].
    rewrite bind_assoc. step. step.
    erewrite bind_Raise; [done|].
    unfold perform_create, super_perform_create. simpl.
    rewrite bind_assoc. by step.
Qed.

(** X7: after the hook, the create renders the stored project with
    the full serializer: it answers 201 with that rendering, under the
    headers computed from the data of the create serializer.  When the
    full rendering raises, the exception is the outcome although the
    project is stored and the hook has run. *)
Theorem create_answers_full_rendering self db vd db1 project db2 d :
  ProjectCreateSerializer_run_validation (data (request self)) db
  = Return vd →
  ProjectCreateSerializer_save vd db = (db1, Return project) →
  finish_import_project (request self) project db1 = (db2, Return ()) →
  ProjectCreateSerializer_data
    {| initial_data := data (request self); validated_data := Some vd;
       instance := Some project |} db2 = Return d →
  (∀ d',
     ProjectSerializer_data (Some project) db2 = Return d' →
     create self db
     = (db2, Return {| response_data := Some d';
                       status := HTTP_201_CREATED;
                       headers := get_success_headers d |}))
  ∧ (∀ e,
       ProjectSerializer_data (Some project) db2 = Raise e →
       create self db = (db2, Raise e)).
Proof.
  intros Hvalid Hsave Hhook Hd. split.
  - intros d' Hd'. by eapply create_succeeds.
  - intros e He. unfold create, is_valid, get_serializer.
    cbn [initial_data instance validated_data].
    rewrite bind_assoc. step. step.
    erewrite bind_Return; cycle 1.
    { rewrite (perform_create_after_save _ _ _ _ _ Hsave). by step. }
    step. cbn [instance]. by step.
Qed.

End ProjectImportEdges.

(** ** The superproject: the answer and the failures it lets through *)

Section SuperprojectEdges.
Context `{C : Collaborators}.
Import ProjectsViewSetBase.

Lemma superproject_lookup_first project db r rs :
  Project_superprojects project db = Return (r :: rs) →
  superproject_lookup project db = query (ProjectRelationship_parent r) db.
Proof. intros Hrs. unfold superproject_lookup. by step. Qed.

(** X8: when the project is the child of relationships, the handler
    answers 200 with the rendering of the parent of the first one,
    whatever the later ones are. *)
Theorem superproject_renders_first_parent self db project r rs sp d :
  get_object self db = Return project →
  Project_superprojects project db = Return (r :: rs) →
  ProjectRelationship_parent r db = Return sp →
  ProjectSerializer_data (Some sp) db = Return d →
  superproject self db = (db, Return (Response_of (Some d) HTTP_200_OK)).
Proof.
  intros Hget Hrs Hparent Hd. unfold superproject. step.
  unfold try_except_Exception.
  erewrite bind_Return; cycle 1.
  { rewrite (superproject_lookup_first _ _ _ _ Hrs). unfold query.
    by rewrite Hparent. }
  by step.
Qed.

(** X9: the rendering of the superproject runs under the same [try]
    as its lookup: when the parent is found and its rendering raises an
    exception, the answer is 404 as well. *)
Theorem superproject_rendering_failure_is_not_found self db project r rs sp e :
  get_object self db = Return project →
  Project_superprojects project db = Return (r :: rs) →
  ProjectRelationship_parent r db = Return sp →
  ProjectSerializer_data (Some sp) db = Raise e →
  isinstance_Exception e = true →
  superproject self db = (db, Return (Response_of None HTTP_404_NOT_FOUND)).
Proof.
  intros Hget Hrs Hparent Hd He. unfold superproject. step.
  rewrite (try_except_Exception_caught _ _ db db e); [done| |exact He].
  erewrite bind_Return; cycle 1.
  { rewrite (superproject_lookup_first _ _ _ _ Hrs). unfold query.
    by rewrite Hparent. }
  by step.
Qed.

(** X10: the [try] starts after the project of the path is fetched and
    catches [Exception] only.  A failure to fetch the project (not
    found, permission denied) leaves the handler as it is, and so does
    an exception of the lookup that is no [Exception]. *)
Theorem superproject_lets_through self db e :
  (get_object self db = Raise e →
   superproject self db = (db, Raise e)
   ∧ http_status (superproject self db).2 = status_of_exn e)
  ∧ (∀ project db',
       get_object self db = Return project →
       superproject_lookup project db = (db', Raise e) →
       isinstance_Exception e = false →
       superproject self db = (db', Raise e)).
Proof.
  split.
  - intros Hget.
    assert (superproject self db = (db, Raise e)) as Hrun.
    { unfold superproject. by step. }
    split; [exact Hrun | by rewrite Hrun].
  - intros project db' Hget Hlookup He. unfold superproject. step.
    unfold try_except_Exception.
    erewrite bind_Raise by exact Hlookup. by rewrite He.
Qed.

End SuperprojectEdges.

(** ** Rows created under a project: what is kept and what is not *)

Section ParentInjectionEdges.
Context `{C : Collaborators}.

Lemma inject_and_save_ignores_project t self (s : ModelSerializer Row) vd q db :
  validated_data s = Some vd →
  inject_and_save t self
    {| initial_data := initial_data s;
       validated_data := Some (<["project" := q]> vd);
       instance := instance s |} db
  = inject_and_save t self s db.
Proof.
  intros Hvd. unfold inject_and_save, ModelSerializer_.get_validated_data.
  cbn [validated_data]. rewrite Hvd, !bind_mret.
  destruct (_get_parent_project self db) as [p|e] eqn:Hp; [|by do 2 step].
  do 2 step. unfold ModelSerializer_.update.
  cbn [initial_data instance]. by rewrite insert_insert_eq.
Qed.

Lemma inject_and_save_without_parent t self (s : ModelSerializer Row) vd db e :
  validated_data s = Some vd →
  _get_parent_project self db = Raise e →
  inject_and_save t self s db = (db, Raise e).
Proof.
  intros Hvd Hp. unfold inject_and_save, ModelSerializer_.get_validated_data.
  rewrite Hvd. by do 2 step.
Qed.

(** X11: a ["project"] entry in the validated data has no effect at
    all: the create of a redirect, as the one of an environment
    variable, has the same outcome (database, row and serializer)
    whatever that entry is set to. *)
Theorem perform_create_ignores_submitted_project self (s : ModelSerializer Row)
    vd q db :
  validated_data s = Some vd →
  RedirectsViewSet.perform_create self
    {| initial_data := initial_data s;
       validated_data := Some (<["project" := q]> vd);
       instance := instance s |} db
  = RedirectsViewSet.perform_create self s db
  ∧ EnvironmentVariablesViewSet.perform_create self
      {| initial_data := initial_data s;
         validated_data := Some (<["project" := q]> vd);
         instance := instance s |} db
    = EnvironmentVariablesViewSet.perform_create self s db.
Proof.
  intros Hvd. split.
  - exact (inject_and_save_ignores_project RedirectTable self s vd q db Hvd).
  - exact (inject_and_save_ignores_project EnvironmentVariableTable self s vd q
             db Hvd).
Qed.

(** X13: without the project of the path nothing is created: when the
    lookup of the parent raises, both creates end with that exception
    and the database is untouched. *)
Theorem perform_create_without_parent self (s : ModelSerializer Row) vd db e :
  validated_data s = Some vd →
  _get_parent_project self db = Raise e →
  RedirectsViewSet.perform_create self s db = (db, Raise e)
  ∧ EnvironmentVariablesViewSet.perform_create self s db = (db, Raise e).
Proof.
  intros Hvd Hp. split.
  - exact (inject_and_save_without_parent RedirectTable self s vd db e Hvd Hp).
  - exact (inject_and_save_without_parent EnvironmentVariableTable self s vd db
             e Hvd Hp).
Qed.

End ParentInjectionEdges.

(** ** Serializer resolution: what it depends on *)

(** The schema of an action, read on a view without anything else. *)
Lemma get_serializer_class_of_action v self a :
  action self = a →
  get_serializer_class v self
  = get_serializer_class v (Demo.view "" a false Demo.alice ∅ ∅).
Proof.
  intros <-. destruct v; simpl; try reflexivity;
    by unfold ProjectsViewSetBase.get_serializer_class,
         SubprojectRelationshipViewSet.get_serializer_class,
         VersionsViewSet.get_serializer_class,
         BuildsCreateViewSet.get_serializer_class,
         RedirectsViewSet.get_serializer_class.
Qed.

(** X14: on every viewset the schema is a function of the action
    alone: two views with the same action get the same schema, whoever
    the caller is and whatever the body, the path and the basename
    are. *)
Theorem resolution_depends_on_action_only (v : ViewSet) (self1 self2 : View) :
  action self1 = action self2 →
  get_serializer_class v self1 = get_serializer_class v self2.
Proof.
  intros Ha.
  destruct v; simpl; try reflexivity;
    unfold ProjectsViewSetBase.get_serializer_class,
      SubprojectRelationshipViewSet.get_serializer_class,
      VersionsViewSet.get_serializer_class,
      BuildsCreateViewSet.get_serializer_class,
      RedirectsViewSet.get_serializer_class;
    by rewrite Ha.
Qed.

(** X15: how the schemas of the actions relate, on every viewset: a
    full and a partial update are validated by the same schema, a list
    and a retrieve are rendered by the same schema; and on each viewset
    that names a write schema, the schema of an update (of a create)
    differs from the one a retrieve renders with. *)
Theorem write_and_read_schemas :
  (∀ v su sp,
     action su = "update" → action sp = "partial_update" →
     get_serializer_class v su = get_serializer_class v sp)
  ∧ (∀ v sl sr,
       action sl = "list" → action sr = "retrieve" →
       get_serializer_class v sl = get_serializer_class v sr)
  ∧ (∀ v su sr,
       v ∈ [ProjectsViewSetBase; VersionsViewSet; RedirectsViewSet] →
       action su = "update" → action sr = "retrieve" →
       get_serializer_class v su ≠ get_serializer_class v sr)
  ∧ (∀ v sc sr,
       v ∈ [ProjectsViewSetBase; SubprojectRelationshipViewSet;
            BuildsCreateViewSet; RedirectsViewSet] →
       action sc = "create" → action sr = "retrieve" →
       get_serializer_class v sc ≠ get_serializer_class v sr).
Proof.
  split; [|split; [|split]].
  - intros v su sp Hu Hp.
    rewrite (get_serializer_class_of_action v su _ Hu),
      (get_serializer_class_of_action v sp _ Hp).
    by destruct v.
  - intros v sl sr Hl Hr.
    rewrite (get_serializer_class_of_action v sl _ Hl),
      (get_serializer_class_of_action v sr _ Hr).
    by destruct v.
  - intros v su sr Hv Hu Hr.
    rewrite (get_serializer_class_of_action v su _ Hu),
      (get_serializer_class_of_action v sr _ Hr).
    set_unfold. destruct Hv as [->|[->|[->|[]]]]; by vm_compute.
  - intros v sc sr Hv Hc Hr.
    rewrite (get_serializer_class_of_action v sc _ Hc),
      (get_serializer_class_of_action v sr _ Hr).
    set_unfold. destruct Hv as [->|[->|[->|[->|[]]]]]; by vm_compute.
Qed.

(** ** The routes of the viewsets *)

(** X16: which viewsets can change what they serve, as their class
    statements say.  A destroy is routed at subprojects, redirects and
    environment variables only; a create at projects, subprojects,
    builds under a version, redirects and environment variables only;
    an update wherever a partial update is, that is at projects,
    versions, redirects and the notification viewsets, and not at
    environment variables. *)
Theorem mutation_routes (v : ViewSet) :
  ("destroy" ∈ routed_actions v
   ↔ v ∈ [SubprojectRelationshipViewSet; RedirectsViewSet;
          EnvironmentVariablesViewSet])
  ∧ ("create" ∈ routed_actions v
     ↔ v ∈ [ProjectsViewSetBase; SubprojectRelationshipViewSet;
            BuildsCreateViewSet; RedirectsViewSet;
            EnvironmentVariablesViewSet])
  ∧ ("update" ∈ routed_actions v ↔ "partial_update" ∈ routed_actions v)
  ∧ ("update" ∈ routed_actions v
     ↔ v ∈ [ProjectsViewSetBase; VersionsViewSet; RedirectsViewSet;
            NotificationsForUserViewSet; NotificationsProjectViewSet;
            NotificationsBuildViewSet; NotificationsUserViewSet;
            NotificationsOrganizationViewSet]).
Proof.
  repeat split; intros Hin;
    apply (bool_decide_unpack _); apply (bool_decide_pack _) in Hin;
    revert Hin; by destruct v.
Qed.

(** ** The notifications of the caller: whose they are *)

Lemma List_filter_sublist {A} (f : A → bool) (l : list A) :
  List.filter f l `sublist_of` l.
Proof.
  induction l as [|x l IH]; simpl; [constructor|].
  destruct (f x); by constructor.
Qed.

(** X17: the listing of the caller's notifications is decided by the
    caller alone: views of the same user get the same listing whatever
    their path says, no notification is in the listings of two
    different users, and the listing keeps the stored order. *)
Theorem self_notifications_follow_the_caller :
  (∀ self1 self2 db,
     user_pk (user (request self1)) = user_pk (user (request self2)) →
     NotificationsUserViewSet.get_queryset self1 db
     = NotificationsUserViewSet.get_queryset self2 db)
  ∧ (∀ self1 self2 db n,
       user_pk (user (request self1)) ≠ user_pk (user (request self2)) →
       n ∈ NotificationsUserViewSet.get_queryset self1 db →
       n ∉ NotificationsUserViewSet.get_queryset self2 db)
  ∧ (∀ self db,
       NotificationsUserViewSet.get_queryset self db
       `sublist_of` notifications db).
Proof.
  split; [|split].
  - intros self1 self2 db Hpk.
    unfold NotificationsUserViewSet.get_queryset. by rewrite Hpk.
  - intros self1 self2 db n Hpk.
    unfold NotificationsUserViewSet.get_queryset.
    rewrite !elem_of_List_filter, !andb_true_iff, !bool_decide_eq_true.
    intros (_ & _ & H1) (_ & _ & H2). congruence.
  - intros self db. apply List_filter_sublist.
Qed.

(** ** The create of a subproject *)

Section SubprojectCreate.
Context `{C : Collaborators} `{S : SubprojectCollaborators}.
Import SubprojectRelationship.

Lemma get_serializer_context_parent self db p :
  _get_parent_project self db = Return p →
  get_serializer_context self db
  = Return (<["parent" := CtxProject p]> (super_get_serializer_context self)).
Proof. intros Hp. unfold get_serializer_context. by rewrite Hp. Qed.

(** X18: nothing of the body is looked at before the parent of the
    path is resolved, and nothing is stored before the body is valid:
    when the lookup of the parent raises, the create ends with that
    exception, and when the validation (under the context that holds
    the parent) raises, it ends with the validation error; in both
    cases the database is untouched. *)
Theorem subproject_create_fails_early self db e :
  (_get_parent_project self db = Raise e → create self db = (db, Raise e))
  ∧ (∀ p,
       _get_parent_project self db = Return p →
       SubprojectCreateSerializer_run_validation
         (<["parent" := CtxProject p]> (super_get_serializer_context self))
         (data (request self)) db = Raise e →
       create self db = (db, Raise e)).
Proof.
  split.
  - intros Hp. unfold create. by step.
  - intros p Hp Hvalid. unfold create. step.
    erewrite bind_query_Return by (by apply get_serializer_context_parent).
    cbn [initial_data]. by step.
Qed.

(** X19: the relationship is created from the validated data with its
    ["parent"] entry set to the project of the path, whatever the
    validated data hold under that key; the create then answers 201
    with the full rendering of the relationship, under the headers
    computed from the data of the create serializer. *)
Theorem subproject_create_injects_parent self db p vd db1 obj d d' :
  _get_parent_project self db = Return p →
  SubprojectCreateSerializer_run_validation
    (<["parent" := CtxProject p]> (super_get_serializer_context self))
    (data (request self)) db = Return vd →
  SubprojectCreateSerializer_create (<["parent" := PProject p]> vd) db
  = (db1, Return obj) →
  SubprojectCreateSerializer_data
    {| initial_data := data (request self); validated_data := Some vd;
       instance := Some obj |} db1 = Return d →
  SubprojectSerializer_data (Some obj) db1 = Return d' →
  create self db
  = (db1, Return {| response_data := Some d';
                    status := HTTP_201_CREATED;
                    headers := get_success_headers d |}).
Proof.
  intros Hp Hvalid Hcreate Hd Hd'. unfold create. step.
  erewrite bind_query_Return by (by apply get_serializer_context_parent).
  cbn [initial_data instance]. step.
  erewrite bind_Return; cycle 1.
  { unfold save. cbn [validated_data initial_data].
    rewrite <- insert_union_singleton_l. by step. }
  step. cbn [instance]. step. reflexivity.
Qed.

End SubprojectCreate.

(** ** The listing of the remote repositories *)

Section RemoteListing.
Context `{R : RemoteCollaborators}.
Import RemoteRepositoryViewSet.

Lemma ordered_total : Total ordered.
Proof. intros a b. apply key_le_total. Qed.

Lemma get_queryset_unfold self tables :
  get_queryset self tables
  = merge_sort ordered
      (remove_dups
         (annotate tables (user (request self))
            (RemoteQuerySetMixin_get_queryset self tables))).
Proof.
  unfold get_queryset, order_by_distinct, select_related, prefetch_related.
  by repeat case_match.
Qed.

Lemma elem_of_get_queryset self tables a :
  a ∈ get_queryset self tables
  ↔ a ∈ annotate tables (user (request self))
          (RemoteQuerySetMixin_get_queryset self tables).
Proof.
  rewrite get_queryset_unfold, merge_sort_Permutation.
  apply elem_of_remove_dups.
Qed.

Lemma Exists_admin_relation_spec tables u pk :
  Exists_admin_relation tables u pk = true
  ↔ ∃ rel, rel ∈ remote_relations tables
           ∧ remote_repository rel = pk
           ∧ relation_user rel = user_pk u
           ∧ admin rel = true.
Proof.
  unfold Exists_admin_relation. rewrite existsb_exists. split.
  - intros (rel & Hin & Hrel).
    rewrite !andb_true_iff, !bool_decide_eq_true in Hrel.
    exists rel. rewrite list_elem_of_In. tauto.
  - intros (rel & Hin & Hrel). exists rel.
    rewrite !andb_true_iff, !bool_decide_eq_true.
    rewrite <- list_elem_of_In. tauto.
Qed.

(** X20: every row of the listing says whether the caller administers
    the repository: its [_admin] is true exactly when a relation of the
    caller to that repository with [admin] set is stored. *)
Theorem remote_admin_annotation self tables a :
  a ∈ get_queryset self tables →
  (_admin a = true
   ↔ ∃ rel, rel ∈ remote_relations tables
            ∧ remote_repository rel = remote_repository_pk (repository a)
            ∧ relation_user rel = user_pk (user (request self))
            ∧ admin rel = true).
Proof.
  rewrite elem_of_get_queryset. unfold annotate.
  intros (r & -> & _)%list_elem_of_fmap. simpl.
  apply Exists_admin_relation_spec.
Qed.

(** X21: the annotation filters nothing and the expansions change no
    row: the listing holds the repositories of the inherited queryset,
    each one once (also one the caller does not administer, also one
    the inherited queryset yields several times), in the order of the
    keys [organization__name], [full_name]. *)
Theorem remote_listing_rows self tables :
  (∀ r, (∃ a, a ∈ get_queryset self tables ∧ repository a = r)
        ↔ r ∈ RemoteQuerySetMixin_get_queryset self tables)
  ∧ NoDup (repository <$> get_queryset self tables)
  ∧ Sorted ordered (get_queryset self tables).
Proof.
  split; [|split].
  - intros r. split.
    + intros (a & Ha & <-). apply elem_of_get_queryset in Ha.
      unfold annotate in Ha.
      by apply list_elem_of_fmap in Ha as (r & -> & Hr).
    + intros Hr.
      exists {| repository := r;
                _admin := Exists_admin_relation tables (user (request self))
                            (remote_repository_pk r) |}.
      split; [|done].
      apply elem_of_get_queryset. unfold annotate.
      apply list_elem_of_fmap. by exists r.
  - rewrite get_queryset_unfold, merge_sort_Permutation.
    unfold annotate.
    set (f := λ r, {| repository := r;
                      _admin := Exists_admin_relation tables
                                  (user (request self))
                                  (remote_repository_pk r) |}).
    assert (Inj (=) (=) f) as Hinj.
    { intros r1 r2 Hf. by injection Hf. }
    assert (∀ l, repository <$> remove_dups (f <$> l) = remove_dups l) as Hdups.
    { induction l as [|x l IH]; [done|]. simpl.
      destruct (decide_rel elem_of (f x) _) as [Hin|Hin];
        destruct (decide_rel elem_of x l) as [Hin'|Hin'].
      - exact IH.
      - by apply (list_elem_of_fmap_inj_2 f) in Hin.
      - by apply (list_elem_of_fmap_2 f) in Hin'.
      - simpl. f_equal. exact IH. }
    rewrite Hdups. apply NoDup_remove_dups.
  - rewrite get_queryset_unfold.
    pose proof ordered_total as Htotal. by apply Sorted_merge_sort.
Qed.

End RemoteListing.

(** * More properties on the small installation *)

Lemma create_stops_before_gateway_witness :
  @BuildsCreateViewSet.create Demo.installation Fixtures.builds_create_nowhere
    Demo.db0
  = (Demo.db0, Raise Http404).
Proof.
  apply (proj1 (@create_stops_before_gateway Demo.installation
                  Fixtures.builds_create_nowhere Demo.db0 Http404)).
  reflexivity.
Defined.

Lemma create_accepted_body_witness :
  ∃ body,
    @BuildsCreateViewSet.create Demo.installation Demo.builds_create_latest
      Demo.db0
    = (Demo.db_triggered,
       Return (Response_of (Some body) HTTP_202_ACCEPTED))
    ∧ dom body = ({[ "build"; "project"; "version"; "triggered" ]} : gset string)
    ∧ body !! "build" = Some (JDict (Demo.build_data (Some Demo.new_build)))
    ∧ body !! "project" = Some (JDict (Demo.project_data (Some Demo.pip)))
    ∧ body !! "version" = Some (JDict (Demo.version_data (Some Demo.latest)))
    ∧ body !! "triggered" = Some (JBool true).
Proof.
  apply (@create_accepted_body Demo.installation Demo.builds_create_latest
           Demo.db0 Demo.pip Demo.latest Demo.db_triggered (Some 7)
           Demo.new_build);
    reflexivity.
Defined.

Lemma create_only_answers_202_witness :
  status Demo.accepted_response = HTTP_202_ACCEPTED
  ∧ (response_data Demo.accepted_response ≫= (.!! "triggered"))
    = Some (JBool true).
Proof.
  apply (@create_only_answers_202 Demo.installation Demo.builds_create_latest
           Demo.db0 Demo.db_triggered Demo.accepted_response).
  reflexivity.
Defined.

Lemma update_stops_at_first_failure_witness :
  @VersionsViewSet.update Demo.installation Fixtures.versions_update_missing
    Demo.db0
  = (Demo.db0, Raise Http404).
Proof.
  apply (proj1 (@update_stops_at_first_failure Demo.installation
                  Fixtures.versions_update_missing Demo.db0 Http404)).
  reflexivity.
Defined.

Lemma update_answers_inner_response_witness :
  @VersionsViewSet.update Demo.installation Demo.versions_update_latest
    Demo.db0
  = ((Demo.record (PostSave Demo.latest_inactive true) Demo.db_updated).1,
     Return (Response_of None HTTP_204_NO_CONTENT)).
Proof.
  apply (proj1 (@update_answers_inner_response Demo.installation
                  Demo.versions_update_latest Demo.db0 Demo.latest
                  Demo.db_updated (Response_of None HTTP_204_NO_CONTENT)
                  Demo.latest_inactive
                  (Demo.record (PostSave Demo.latest_inactive true)
                     Demo.db_updated).1
                  eq_refl eq_refl eq_refl)).
  reflexivity.
Defined.

Lemma create_fails_before_hook_witness :
  @ProjectsViewSetBase.create Demo.installation
    Fixtures.projects_create_nameless Demo.db0
  = (Demo.db0, Raise (ValidationError ["name"])).
Proof.
  apply (proj1 (@create_fails_before_hook Demo.installation
                  Fixtures.projects_create_nameless Demo.db0
                  (ValidationError ["name"]))).
  reflexivity.
Defined.

Lemma create_answers_full_rendering_witness :
  @ProjectsViewSetBase.create Demo.installation Demo.projects_create Demo.db0
  = ((Demo.record (FinishImport Demo.new_project) Demo.db_imported).1,
     Return {| response_data := Some (Demo.project_data (Some Demo.new_project));
               status := HTTP_201_CREATED;
               headers := ∅ |}).
Proof.
  apply (proj1 (@create_answers_full_rendering Demo.installation
                  Demo.projects_create Demo.db0
                  {[ "name" := PJson (JStr "new") ]} Demo.db_imported
                  Demo.new_project
                  (Demo.record (FinishImport Demo.new_project)
                     Demo.db_imported).1
                  (Demo.project_data (Some Demo.new_project))
                  eq_refl eq_refl eq_refl eq_refl)).
  reflexivity.
Defined.

Lemma superproject_renders_first_parent_witness :
  @ProjectsViewSetBase.superproject Demo.installation
    Fixtures.projects_superproject_docs Demo.db0
  = (Demo.db0,
     Return (Response_of (Some (Demo.project_data (Some Demo.pip)))
               HTTP_200_OK)).
Proof.
  apply (@superproject_renders_first_parent Demo.installation
           Fixtures.projects_superproject_docs Demo.db0 Demo.docs
           {| parent := "pip"; child := "docs"; alias := "d" |} [] Demo.pip);
    reflexivity.
Defined.

Lemma superproject_rendering_failure_is_not_found_witness :
  @ProjectsViewSetBase.superproject Fixtures.unrenderable
    Fixtures.projects_superproject_docs Demo.db0
  = (Demo.db0, Return (Response_of None HTTP_404_NOT_FOUND)).
Proof.
  apply (@superproject_rendering_failure_is_not_found Fixtures.unrenderable
           Fixtures.projects_superproject_docs Demo.db0 Demo.docs
           {| parent := "pip"; child := "docs"; alias := "d" |} [] Demo.pip
           (DatabaseError "connection lost"));
    reflexivity.
Defined.

Lemma superproject_lets_through_witness :
  @ProjectsViewSetBase.superproject Demo.installation
    Fixtures.projects_superproject_vault Demo.db0
  = (Demo.db0, Raise Http404)
  ∧ http_status
      (@ProjectsViewSetBase.superproject Demo.installation
         Fixtures.projects_superproject_vault Demo.db0).2
    = status_of_exn Http404.
Proof.
  apply (proj1 (@superproject_lets_through Demo.installation
                  Fixtures.projects_superproject_vault Demo.db0 Http404)).
  reflexivity.
Defined.

Lemma perform_create_ignores_submitted_project_witness :
  @RedirectsViewSet.perform_create Demo.installation Demo.redirects_create
    {| initial_data := ∅;
       validated_data :=
         Some (<["project" := PProject Demo.vault]>
                 {[ "from_url" := PJson (JStr "/old") ]});
       instance := None |} Demo.db0
  = @RedirectsViewSet.perform_create Demo.installation Demo.redirects_create
      {| initial_data := ∅;
         validated_data := Some {[ "from_url" := PJson (JStr "/old") ]};
         instance := None |} Demo.db0
  ∧ @EnvironmentVariablesViewSet.perform_create Demo.installation
      Demo.redirects_create
      {| initial_data := ∅;
         validated_data :=
           Some (<["project" := PProject Demo.vault]>
                   {[ "from_url" := PJson (JStr "/old") ]});
         instance := None |} Demo.db0
    = @EnvironmentVariablesViewSet.perform_create Demo.installation
        Demo.redirects_create
        {| initial_data := ∅;
           validated_data := Some {[ "from_url" := PJson (JStr "/old") ]};
           instance := None |} Demo.db0.
Proof.
  apply (@perform_create_ignores_submitted_project Demo.installation
           Demo.redirects_create
           {| initial_data := ∅;
              validated_data := Some {[ "from_url" := PJson (JStr "/old") ]};
              instance := None |}
           {[ "from_url" := PJson (JStr "/old") ]} (PProject Demo.vault)
           Demo.db0).
  reflexivity.
Defined.

Lemma perform_create_without_parent_witness :
  @RedirectsViewSet.perform_create Demo.installation
    Fixtures.redirects_create_nowhere Demo.validated Demo.db0
  = (Demo.db0, Raise Http404)
  ∧ @EnvironmentVariablesViewSet.perform_create Demo.installation
      Fixtures.redirects_create_nowhere Demo.validated Demo.db0
    = (Demo.db0, Raise Http404).
Proof.
  apply (@perform_create_without_parent Demo.installation
           Fixtures.redirects_create_nowhere Demo.validated Demo.submitted
           Demo.db0 Http404);
    reflexivity.
Defined.

Lemma resolution_depends_on_action_only_witness :
  get_serializer_class VersionsViewSet Demo.versions_update_latest
  = get_serializer_class VersionsViewSet Fixtures.versions_update_missing.
Proof.
  apply (resolution_depends_on_action_only VersionsViewSet
           Demo.versions_update_latest Fixtures.versions_update_missing).
  reflexivity.
Defined.

Lemma write_and_read_schemas_witness :
  get_serializer_class ProjectsViewSetBase
    (Demo.view "projects" "update" true Demo.alice ∅ ∅)
  ≠ get_serializer_class ProjectsViewSetBase Demo.projects_retrieve_docs.
Proof.
  destruct write_and_read_schemas as (_ & _ & Hupdate & _).
  apply Hupdate; [|reflexivity..].
  apply (bool_decide_unpack _). reflexivity.
Defined.

Lemma self_notifications_follow_the_caller_witness :
  Demo.for_alice
  ∉ NotificationsUserViewSet.get_queryset Fixtures.users_notifications_bob
      Demo.db0.
Proof.
  destruct self_notifications_follow_the_caller as (_ & Hdisjoint & _).
  apply (Hdisjoint Demo.users_notifications Fixtures.users_notifications_bob
           Demo.db0 Demo.for_alice).
  - simpl. discriminate.
  - apply (bool_decide_unpack _). reflexivity.
Defined.

Lemma subproject_create_fails_early_witness :
  @SubprojectRelationship.create Demo.installation Fixtures.subprojects
    Fixtures.subprojects_create_nowhere Demo.db0
  = (Demo.db0, Raise Http404).
Proof.
  apply (proj1 (@subproject_create_fails_early Demo.installation
                  Fixtures.subprojects Fixtures.subprojects_create_nowhere
                  Demo.db0 Http404)).
  reflexivity.
Defined.

Lemma subproject_create_injects_parent_witness :
  @SubprojectRelationship.create Demo.installation Fixtures.subprojects
    Fixtures.subprojects_create Demo.db0
  = (Fixtures.db_related,
     Return {| response_data :=
                 Some (Fixtures.relationship_data (Some Fixtures.pip_vault));
               status := HTTP_201_CREATED;
               headers := ∅ |}).
Proof.
  apply (@subproject_create_injects_parent Demo.installation
           Fixtures.subprojects Fixtures.subprojects_create Demo.db0 Demo.pip
           (<["alias" := PJson (JStr "v")]> {[ "child" := PProject Demo.vault ]})
           Fixtures.db_related Fixtures.pip_vault
           (Fixtures.alias_data (Some Fixtures.pip_vault))
           (Fixtures.relationship_data (Some Fixtures.pip_vault)));
    reflexivity.
Defined.

Lemma remote_admin_annotation_witness :
  _admin {| repository := Fixtures.acme_web; _admin := false |} = true
  ↔ ∃ rel, rel ∈ remote_relations Fixtures.tables
           ∧ remote_repository rel
             = remote_repository_pk
                 (repository {| repository := Fixtures.acme_web;
                                _admin := false |})
           ∧ relation_user rel
             = user_pk (user (request Fixtures.remoterepositories_list))
           ∧ admin rel = true.
Proof.
  apply (@remote_admin_annotation Fixtures.remotes
           Fixtures.remoterepositories_list Fixtures.tables
           {| repository := Fixtures.acme_web; _admin := false |}).
  apply (bool_decide_unpack _). reflexivity.
Defined.

(** The listing of alice on the small installation: the repository
    stored under two relations comes once, without [_admin], and the
    one without organization comes last. *)
Lemma remote_listing_of_alice :
  @RemoteRepositoryViewSet.get_queryset Fixtures.remotes
    Fixtures.remoterepositories_list Fixtures.tables
  = [{| repository := Fixtures.acme_api; _admin := true |};
     {| repository := Fixtures.acme_web; _admin := false |};
     {| repository := Fixtures.dotfiles; _admin := true |}].
Proof. reflexivity. Qed.
